(** * Execution orchestration of SQL workflows (sql/utils/execute_sql.py)

    A shallow embedding of the two entry points of the module, [execute]
    (dispatch of an approved workflow to its engine) and [execute_callback]
    (the django-q hook that files the result of the run), together with the
    properties of the dispatcher, the outcome classification, the
    environment promotion and the notification switch.

    Python strings are [string]; the status column keeps its string values;
    database tables are finite maps keyed by primary key; code that may raise
    lives in a state-and-exception monad over the [World] the module talks
    to. *)

From Stdlib Require Import ZArith String Ascii List Bool DecimalString.
From stdpp Require Import base option gmap strings list fin_maps.
Import ListNotations.

Local Open Scope string_scope.
Local Open Scope Z_scope.

(** ** Python string helpers *)

Module PyStr.

(** [s.startswith(p)] *)
Definition startswith (s p : string) : bool := String.prefix p s.

(** [s.split(sep)] for a one-character separator: the pieces between
    occurrences of [sep]; the empty string gives one empty piece. *)
Fixpoint split_acc (sep : ascii) (cur : string) (s : string) : list string :=
  match s with
  | EmptyString => [String.rev cur]
  | String c s' =>
      if Ascii.eqb c sep
      then String.rev cur :: split_acc sep EmptyString s'
      else split_acc sep (String c cur) s'
  end.

Definition split (sep : ascii) (s : string) : list string :=
  split_acc sep EmptyString s.

(** [s.replace(old, new)] for a non-empty [old]: every non-overlapping
    occurrence, scanning from the left.  [skip] counts the characters of a
    matched occurrence that are still to be dropped. *)
Fixpoint replace_from (old new : string) (skip : nat) (s : string) : string :=
  match s with
  | EmptyString => EmptyString
  | String c s' =>
      match skip with
      | S k => replace_from old new k s'
      | O =>
          if String.prefix old s
          then new ++ replace_from old new (Nat.pred (String.length old)) s'
          else String c (replace_from old new O s')
      end
  end.

Definition replace (s old new : string) : string := replace_from old new O s.

(** [sub in s] *)
Fixpoint contains (sub s : string) : bool :=
  String.prefix sub s ||
  match s with
  | EmptyString => false
  | String _ s' => contains sub s'
  end.

(** [x in l] on a list of strings *)
Definition mem (x : string) (l : list string) : bool :=
  existsb (String.eqb x) l.

(** ['[{}]'.format(env)] *)
Definition mark (env : string) : string := "[" ++ env ++ "]".

End PyStr.

(** ** Data model *)

(** Values a django-q task can carry in [task.result]: the review set an
    engine returned, the traceback text of a failed run, or nothing.  A row
    of a review set stores whatever it was given as its message, so the three
    types are declared together. *)
Inductive PyValue : Type :=
| PyNone
| PyText (s : string)
| PyReviewSet (r : ReviewSet)
with ReviewSet : Type :=
| Build_ReviewSet (full_sql : string) (warning error : bool) (rows : list ReviewResult)
with ReviewResult : Type :=
| Build_ReviewResult (stage : string) (errlevel : Z) (stagestatus : string)
                     (errormessage : PyValue) (sql : string).

Definition full_sql (r : ReviewSet) : string :=
  let 'Build_ReviewSet x _ _ _ := r in x.
Definition warning (r : ReviewSet) : bool :=
  let 'Build_ReviewSet _ x _ _ := r in x.
Definition error (r : ReviewSet) : bool :=
  let 'Build_ReviewSet _ _ x _ := r in x.
Definition rows (r : ReviewSet) : list ReviewResult :=
  let 'Build_ReviewSet _ _ _ x := r in x.

Definition stage (r : ReviewResult) : string :=
  let 'Build_ReviewResult x _ _ _ _ := r in x.
Definition errlevel (r : ReviewResult) : Z :=
  let 'Build_ReviewResult _ x _ _ _ := r in x.
Definition stagestatus (r : ReviewResult) : string :=
  let 'Build_ReviewResult _ _ x _ _ := r in x.
Definition errormessage (r : ReviewResult) : PyValue :=
  let 'Build_ReviewResult _ _ _ x _ := r in x.
Definition sql (r : ReviewResult) : string :=
  let 'Build_ReviewResult _ _ _ _ x := r in x.

(** Modelled from the spec: the class [ReviewSet] is declared in
    [sql.engines.models], which is not part of this module; the spec gives an
    ExecutionResult warning and error flags and an ordered sequence of rows.
    [ReviewSet(full_sql=...)] is a fresh one: no flag raised, no row. *)
Definition ReviewSet_new (full_sql : string) : ReviewSet :=
  Build_ReviewSet full_sql false false [].

Definition set_rows (r : ReviewSet) (l : list ReviewResult) : ReviewSet :=
  Build_ReviewSet (full_sql r) (warning r) (error r) l.

(** Python exceptions the module raises or lets through. *)
Inductive Exn : Type :=
| StatusNotDispatchable            (* line 27: Exception("工单状态不正确，禁止执行！") *)
| StatusNotExecuting (id : Z)      (* line 62: Exception(f"工单{id}状态不正确，禁止重复更新执行结果！") *)
| AttributeError (obj attr : string)  (* attribute [attr] read on an object of type [obj] that lacks it *)
| TypeError (what : string)        (* len() of None *)
| DoesNotExist (model : string)    (* a row that is not there *)
| Failure (msg : string).          (* raised by a collaborator *)

(** [str(id)] of an integer *)
Definition str_of_int (n : Z) : string := NilZero.string_of_int (Z.to_int n).

(** [f"{e}"]: the message of the exception as Python writes it; for
    DoesNotExist, the sentence Django gives to a failed [get], and for the
    content row, read through the reverse accessor of its one-to-one field,
    the sentence of RelatedObjectDoesNotExist. *)
Definition exn_text (e : Exn) : string :=
  match e with
  | StatusNotDispatchable => "工单状态不正确，禁止执行！"
  | StatusNotExecuting id => "工单" ++ str_of_int id ++ "状态不正确，禁止重复更新执行结果！"
  | AttributeError obj attr => "'" ++ obj ++ "' object has no attribute '" ++ attr ++ "'"
  | TypeError w => w
  | DoesNotExist m =>
      if String.eqb m "SqlWorkflowContent"
      then "SqlWorkflow has no sqlworkflowcontent."
      else m ++ " matching query does not exist."
  | Failure msg => msg
  end.

Inductive Result (A : Type) : Type :=
| Ok (a : A)
| Raise (e : Exn).
Arguments Ok {A} a.
Arguments Raise {A} e.

(** ** Outcome classification (lines 66-84) *)

(** The three branches of lines 66-84, given [task.success], [task.result]
    and the SQL text of the workflow: the status written to the workflow and
    the result to be saved.  Reading [task.result.warning] on anything but a
    review set raises AttributeError (on None, on a text); in the last two branches
    [execute_result] is [task.result] itself. *)
Definition classify (success : bool) (result : PyValue) (sql_content : string)
  : Result (string * ReviewSet) :=
  if negb success then
    let execute_result := ReviewSet_new sql_content in
    let execute_result :=
      set_rows execute_result
        [Build_ReviewResult "Execute failed" 2 "异常终止" result sql_content] in
    Ok ("workflow_exception", execute_result)
  else
    match result with
    | PyReviewSet r =>
        if warning r || error r
        then Ok ("workflow_exception", r)
        else Ok ("workflow_finish", r)
    | PyNone => Raise (AttributeError "NoneType" "warning")
    | PyText _ => Raise (AttributeError "str" "warning")
    end.

(** ** Rows and records *)

Module SqlWorkflow.
Record t : Type := Build {
  id : Z;
  status : string;
  instance : Z;                 (* primary key of the target instance *)
  db_name : string;
  workflow_name : string;
  syntax_type : Z;
  finish_time : option Z
}.

Definition set_status (v : string) (w : t) : t :=
  Build (id w) v (instance w) (db_name w) (workflow_name w) (syntax_type w) (finish_time w).
Definition set_target (i : Z) (d : string) (w : t) : t :=
  Build (id w) (status w) i d (workflow_name w) (syntax_type w) (finish_time w).
Definition set_workflow_name (v : string) (w : t) : t :=
  Build (id w) (status w) (instance w) (db_name w) v (syntax_type w) (finish_time w).
Definition set_finish_time (v : option Z) (w : t) : t :=
  Build (id w) (status w) (instance w) (db_name w) (workflow_name w) (syntax_type w) v.
End SqlWorkflow.

(** What the column [execute_result] holds: nothing yet, the JSON of a review
    set, or the one-element set literal of line 96. *)
Inductive Stored : Type :=
| NoResult
| Json (r : ReviewSet)
| TextSet (s : string).

Module SqlWorkflowContent.
Record t : Type := Build {
  sql_content : string;
  execute_result : Stored
}.
Definition set_execute_result (v : Stored) (c : t) : t :=
  Build (sql_content c) v.
End SqlWorkflowContent.

(** One row of the environment chain: four optional (instance, database)
    pairs. *)
Module DBEnvRelation.
Record t : Type := Build {
  dev_instance : option Z;  dev_database : option string;
  sit_instance : option Z;  sit_database : option string;
  uat_instance : option Z;  uat_database : option string;
  pro_instance : option Z;  pro_database : option string
}.
End DBEnvRelation.

Record User : Type := { username : string; display : string }.

(** The arguments of [Audit.add_log]. *)
Record AuditLog : Type := {
  audit_id : Z;
  operation_type : Z;
  operation_type_desc : string;
  operation_info : string;
  operator : string;
  operator_display : string
}.

(** The django-q task handed to the hook. *)
Record Task : Type := {
  args0 : Z;                (* task.args[0], the workflow id *)
  success : bool;
  result : PyValue;
  stopped : Z
}.

(** What [logger.error] is given: at line 91 the id of the workflow and the
    traceback of the exception being handled, at line 126 the exception
    itself (logged as its message, [exn_text]). *)
Inductive LogRecord : Type :=
| CallbackFailed (workflow_id : Z) (e : Exn)
| Logged (e : Exn).

(** ** The world of the module *)

Record World : Type := {
  workflows : gmap Z SqlWorkflow.t;            (* table of SqlWorkflow, by id *)
  contents : gmap Z SqlWorkflowContent.t;      (* one-to-one content, by workflow id *)
  relations : list DBEnvRelation.t;            (* table of DBEnvRelation, in query order *)
  audits : gmap Z Z;                           (* audit id of a sqlreview workflow *)
  audit_log : list AuditLog;                   (* rows written by Audit.add_log *)
  redis_keys : list string;                    (* keys of the default cache *)
  notified : list SqlWorkflow.t;               (* arguments of notify_for_execute *)
  engine_calls : list SqlWorkflow.t;           (* arguments of execute_workflow *)
  error_log : list LogRecord;                  (* logger.error *)
  notify_phase_control : option string         (* SysConfig().get("notify_phase_control") *)
}.

Definition with_workflows (f : gmap Z SqlWorkflow.t -> gmap Z SqlWorkflow.t) (W : World) : World :=
  {| workflows := f (workflows W); contents := contents W; relations := relations W;
     audits := audits W; audit_log := audit_log W; redis_keys := redis_keys W;
     notified := notified W; engine_calls := engine_calls W; error_log := error_log W;
     notify_phase_control := notify_phase_control W |}.

Definition with_contents (f : gmap Z SqlWorkflowContent.t -> gmap Z SqlWorkflowContent.t) (W : World) : World :=
  {| workflows := workflows W; contents := f (contents W); relations := relations W;
     audits := audits W; audit_log := audit_log W; redis_keys := redis_keys W;
     notified := notified W; engine_calls := engine_calls W; error_log := error_log W;
     notify_phase_control := notify_phase_control W |}.

Definition with_audit_log (f : list AuditLog -> list AuditLog) (W : World) : World :=
  {| workflows := workflows W; contents := contents W; relations := relations W;
     audits := audits W; audit_log := f (audit_log W); redis_keys := redis_keys W;
     notified := notified W; engine_calls := engine_calls W; error_log := error_log W;
     notify_phase_control := notify_phase_control W |}.

Definition with_redis_keys (f : list string -> list string) (W : World) : World :=
  {| workflows := workflows W; contents := contents W; relations := relations W;
     audits := audits W; audit_log := audit_log W; redis_keys := f (redis_keys W);
     notified := notified W; engine_calls := engine_calls W; error_log := error_log W;
     notify_phase_control := notify_phase_control W |}.

Definition with_notified (f : list SqlWorkflow.t -> list SqlWorkflow.t) (W : World) : World :=
  {| workflows := workflows W; contents := contents W; relations := relations W;
     audits := audits W; audit_log := audit_log W; redis_keys := redis_keys W;
     notified := f (notified W); engine_calls := engine_calls W; error_log := error_log W;
     notify_phase_control := notify_phase_control W |}.

Definition with_engine_calls (f : list SqlWorkflow.t -> list SqlWorkflow.t) (W : World) : World :=
  {| workflows := workflows W; contents := contents W; relations := relations W;
     audits := audits W; audit_log := audit_log W; redis_keys := redis_keys W;
     notified := notified W; engine_calls := f (engine_calls W); error_log := error_log W;
     notify_phase_control := notify_phase_control W |}.

Definition with_error_log (f : list LogRecord -> list LogRecord) (W : World) : World :=
  {| workflows := workflows W; contents := contents W; relations := relations W;
     audits := audits W; audit_log := audit_log W; redis_keys := redis_keys W;
     notified := notified W; engine_calls := engine_calls W; error_log := f (error_log W);
     notify_phase_control := notify_phase_control W |}.

(** The places where a collaborator (database, audit, cache, notifier,
    engine) is called and may raise. *)
Inductive Site : Type :=
| site_status_save        (* line 30: save(update_fields=["status"]) *)
| site_engine             (* line 46: execute_workflow *)
| site_json               (* line 87: execute_result.json() *)
| site_content_save       (* line 88 *)
| site_workflow_save      (* line 89 *)
| site_forced_update      (* line 92 *)
| site_fallback_save      (* line 97 *)
| site_relation_query     (* line 99 *)
| site_final_save         (* line 138 *)
| site_add_log            (* lines 37 and 143 *)
| site_redis              (* line 154 *)
| site_notify.            (* line 166 *)

(** How the collaborators behave during one call: which sites raise (and
    with what message), how a status is displayed, what the engine
    returns. *)
Record Env : Type := {
  fault : Site -> option string;
  get_status_display : string -> string;
  engine_result : PyValue
}.

(** ** State and exceptions *)

Definition M (A : Type) : Type := World -> Result A * World.

Definition ret {A} (a : A) : M A := fun W => (Ok a, W).
Definition raise {A} (e : Exn) : M A := fun W => (Raise e, W).
Definition bind {A B} (m : M A) (k : A -> M B) : M B :=
  fun W => match m W with
           | (Ok a, W') => k a W'
           | (Raise e, W') => (Raise e, W')
           end.
(** [try: m except Exception as e: h e]; what [m] wrote before it raised
    stays written. *)
Definition try_except {A} (m : M A) (h : Exn -> M A) : M A :=
  fun W => match m W with
           | (Ok a, W') => (Ok a, W')
           | (Raise e, W') => h e W'
           end.
Definition modify (f : World -> World) : M unit := fun W => (Ok tt, f W).
Definition gets {A} (f : World -> A) : M A := fun W => (Ok (f W), W).

Notation "'let!' x ':=' m 'in' k" := (bind m (fun x => k))
  (at level 10, x pattern, m at level 100, k at level 200).

(** A call at [site]: raises when the environment says so. *)
Definition call (E : Env) (site : Site) : M unit :=
  match fault E site with
  | Some msg => raise (Failure msg)
  | None => ret tt
  end.

(** ** Collaborators *)

(** [SqlWorkflow.objects.get(id=workflow_id)] (with or without
    [select_for_update]). *)
Definition get_workflow (workflow_id : Z) : M SqlWorkflow.t :=
  fun W => match workflows W !! workflow_id with
           | Some w => (Ok w, W)
           | None => (Raise (DoesNotExist "SqlWorkflow"), W)
           end.

(** [SqlWorkflow(id=workflow_id, status=v).save(update_fields=["status"])]:
    an UPDATE of the one column of the row with that id. *)
Definition save_status (E : Env) (workflow_id : Z) (v : string) : M unit :=
  let! _ := call E site_status_save in
  modify (with_workflows (alter (SqlWorkflow.set_status v) workflow_id)).

(** [workflow.save()]: every column of the row is written from the object. *)
Definition save_workflow (E : Env) (site : Site) (workflow : SqlWorkflow.t) : M unit :=
  let! _ := call E site in
  modify (with_workflows (insert (SqlWorkflow.id workflow) workflow)).

(** [SqlWorkflow.objects.filter(id=workflow_id).update(finish_time=t, status=v)] *)
Definition update_workflow (E : Env) (workflow_id : Z) (t : Z) (v : string) : M unit :=
  let! _ := call E site_forced_update in
  modify (with_workflows
            (alter (fun w => SqlWorkflow.set_status v (SqlWorkflow.set_finish_time (Some t) w))
                   workflow_id)).

(** [workflow.sqlworkflowcontent]: the related row, fetched on first use and
    kept on the object afterwards ([cached]). *)
Definition get_content (workflow : SqlWorkflow.t) (cached : option SqlWorkflowContent.t)
  : M SqlWorkflowContent.t :=
  match cached with
  | Some c => ret c
  | None =>
      fun W => match contents W !! SqlWorkflow.id workflow with
               | Some c => (Ok c, W)
               | None => (Raise (DoesNotExist "SqlWorkflowContent"), W)
               end
  end.

(** [workflow.sqlworkflowcontent.save()] *)
Definition save_content (E : Env) (site : Site) (workflow : SqlWorkflow.t)
    (c : SqlWorkflowContent.t) : M unit :=
  let! _ := call E site in
  modify (with_contents (insert (SqlWorkflow.id workflow) c)).

(** [execute_result.json()] *)
Definition json (E : Env) (execute_result : ReviewSet) : M Stored :=
  let! _ := call E site_json in
  ret (Json execute_result).

(** Modelled from the spec: [Audit] lives in [sql.utils.workflow_audit],
    which is not part of this module; [detailByWorkflowId(workflowId,
    workflowType) -> auditId] looks the audit record of the workflow up (and
    has nothing to return when there is none), [addLog] appends one entry. *)
Definition detail_by_workflow_id (workflow_id : Z) : M Z :=
  fun W => match audits W !! workflow_id with
           | Some a => (Ok a, W)
           | None => (Raise (DoesNotExist "WorkflowAudit"), W)
           end.

Definition add_log (E : Env) (entry : AuditLog) : M unit :=
  let! _ := call E site_add_log in
  modify (with_audit_log (fun l => (l ++ [entry])%list)).

(** [get_engine(instance=...).execute_workflow(workflow=...)] *)
Definition execute_workflow (E : Env) (workflow : SqlWorkflow.t) : M PyValue :=
  let! _ := modify (with_engine_calls (fun l => (l ++ [workflow])%list)) in
  let! _ := call E site_engine in
  ret (engine_result E).

(** [logger.error(...)] *)
Definition log_error (record : LogRecord) : M unit :=
  modify (with_error_log (fun l => (l ++ [record])%list)).

(** Lines 154-156: every key matching [*insRes*] is deleted. *)
Definition clear_instance_resources (E : Env) : M unit :=
  let! _ := call E site_redis in
  modify (with_redis_keys (filter (fun k => negb (PyStr.contains "insRes" k)))).

(** [notify_for_execute(workflow)]: the notifier is entered with the
    workflow, and what it raises it raises from inside. *)
Definition notify_for_execute (E : Env) (workflow : SqlWorkflow.t) : M unit :=
  let! _ := modify (with_notified (fun l => (l ++ [workflow])%list)) in
  call E site_notify.

(** ** execute (lines 20-46) *)

Definition execute (E : Env) (workflow_id : Z) (user : option User) : M PyValue :=
  let! workflow_detail := get_workflow workflow_id in
  if negb (PyStr.mem (SqlWorkflow.status workflow_detail)
             ["workflow_queuing"; "workflow_timingtask"]%string)
  then raise StatusNotDispatchable
  else
    let! _ := save_status E workflow_id "workflow_executing" in
    let! audit_id := detail_by_workflow_id workflow_id in
    let! _ :=
      add_log E
        {| audit_id := audit_id;
           operation_type := 5;
           operation_type_desc := "执行工单";
           operation_info :=
             match user with Some _ => "工单开始执行" | None => "系统定时执行工单" end;
           operator := match user with Some u => username u | None => "" end;
           operator_display := match user with Some u => display u | None => "系统" end |} in
    execute_workflow E workflow_detail.

(** ** execute_callback (lines 49-166) *)

Definition lift {A} (r : Result A) : M A :=
  match r with
  | Ok a => ret a
  | Raise e => raise e
  end.

(** Lines 66-84 on the workflow object: the failure branch reads the SQL text
    through [workflow.sqlworkflowcontent] (fetching the row), the other two
    do not touch the content.  Returns the status, the result and the content
    object if it has been fetched. *)
Definition outcome (task : Task) (workflow : SqlWorkflow.t)
  : M (string * ReviewSet * option SqlWorkflowContent.t) :=
  if negb (success task) then
    let! c := get_content workflow None in
    let! (st, execute_result) :=
      lift (classify false (result task) (SqlWorkflowContent.sql_content c)) in
    ret (st, execute_result, Some c)
  else
    let! (st, execute_result) := lift (classify true (result task) "") in
    ret (st, execute_result, None).

(** Lines 85-97.  The handler sets [execute_result] on the same content
    object the body used; as it overwrites the one field the body changed,
    fetching the object again from [cached] gives the same value. *)
Definition persist (E : Env) (task : Task) (workflow : SqlWorkflow.t)
    (execute_result : ReviewSet) (cached : option SqlWorkflowContent.t) : M unit :=
  try_except
    (let! j := json E execute_result in
     let! c := get_content workflow cached in
     let c := SqlWorkflowContent.set_execute_result j c in
     let! _ := save_content E site_content_save workflow c in
     save_workflow E site_workflow_save workflow)
    (fun e =>
     let! _ := log_error (CallbackFailed (args0 task) e) in
     let! _ := update_workflow E (args0 task) (stopped task) "workflow_exception" in
     let! c := get_content workflow cached in
     let c := SqlWorkflowContent.set_execute_result (TextSet (exn_text e)) c in
     save_content E site_fallback_save workflow c).

(** [Q(x_instance=workflow.instance) & Q(x_database=workflow.db_name)], and
    likewise [workflow.instance == db_relate.x_instance and workflow.db_name
    == db_relate.x_database]: a null column equals nothing. *)
Definition at_slot (workflow : SqlWorkflow.t) (i : option Z) (d : option string) : bool :=
  match i, d with
  | Some i, Some d =>
      (SqlWorkflow.instance workflow =? i) && String.eqb (SqlWorkflow.db_name workflow) d
  | _, _ => false
  end.

Definition relation_matches (workflow : SqlWorkflow.t) (r : DBEnvRelation.t) : bool :=
  at_slot workflow (DBEnvRelation.dev_instance r) (DBEnvRelation.dev_database r)
  || at_slot workflow (DBEnvRelation.sit_instance r) (DBEnvRelation.sit_database r)
  || at_slot workflow (DBEnvRelation.uat_instance r) (DBEnvRelation.uat_database r)
  || at_slot workflow (DBEnvRelation.pro_instance r) (DBEnvRelation.pro_database r).

(** Lines 99-104: [DBEnvRelation.objects.filter(...).first()] *)
Definition first_relation (E : Env) (workflow : SqlWorkflow.t) : M (option DBEnvRelation.t) :=
  let! _ := call E site_relation_query in
  gets (fun W => List.find (relation_matches workflow) (relations W)).

(** The body of one matched branch (lines 109-112, 114-117, 119-122):
    [curr_env] is set; then, if the next instance is not None and
    [len(next_database) > 0], the workflow is re-targeted.  [len(None)]
    raises TypeError, which the handler of line 125 catches. *)
Definition advance (workflow : SqlWorkflow.t) (curr next : string)
    (next_instance : option Z) (next_database : option string)
  : string * string * SqlWorkflow.t * option Exn :=
  match next_instance with
  | None => (curr, "", workflow, None)
  | Some i =>
      match next_database with
      | None => (curr, "", workflow, Some (TypeError "object of type 'NoneType' has no len()"))
      | Some d =>
          if (0 <? String.length d)%nat
          then (curr, next, SqlWorkflow.set_target i d workflow, None)
          else (curr, "", workflow, None)
      end
  end.

(** Lines 105-126: [curr_env], [next_env], the workflow, and the exception
    the handler caught, if any.  With no relation found, reading
    [db_relate.dev_instance] raises AttributeError. *)
Definition locate (workflow : SqlWorkflow.t) (db_relate : option DBEnvRelation.t)
  : string * string * SqlWorkflow.t * option Exn :=
  match db_relate with
  | None => ("", "", workflow, Some (AttributeError "NoneType" "dev_instance"))
  | Some r =>
      if at_slot workflow (DBEnvRelation.dev_instance r) (DBEnvRelation.dev_database r) then
        advance workflow "dev" "sit" (DBEnvRelation.sit_instance r) (DBEnvRelation.sit_database r)
      else if at_slot workflow (DBEnvRelation.sit_instance r) (DBEnvRelation.sit_database r) then
        advance workflow "sit" "uat" (DBEnvRelation.uat_instance r) (DBEnvRelation.uat_database r)
      else if at_slot workflow (DBEnvRelation.uat_instance r) (DBEnvRelation.uat_database r) then
        advance workflow "uat" "pro" (DBEnvRelation.pro_instance r) (DBEnvRelation.pro_database r)
      else if at_slot workflow (DBEnvRelation.pro_instance r) (DBEnvRelation.pro_database r) then
        ("pro", "", workflow, None)
      else ("", "", workflow, None)
  end.

(** [re.match(r'^\[(dev|sit|uat|pro)\]', name)] as a truth value *)
Definition match_env_tag (name : string) : bool :=
  existsb (fun e => PyStr.startswith name (PyStr.mark e)) ["dev"; "sit"; "uat"; "pro"]%string.

(** Lines 130-136: the rewritten [workflow_name]. *)
Definition rewrite_name (curr_env next_env name : string) : string :=
  let curr_mark := PyStr.mark curr_env in
  let next_mark := PyStr.mark next_env in
  if negb (match_env_tag name)
  then next_mark ++ name
  else PyStr.replace name curr_mark next_mark.

(** Lines 127-137: the workflow and [prompt]. *)
Definition retag (curr_env next_env : string) (workflow : SqlWorkflow.t)
  : SqlWorkflow.t * string :=
  if negb (String.eqb next_env "") then
    let workflow := SqlWorkflow.set_status "workflow_review_pass" workflow in
    let workflow :=
      SqlWorkflow.set_workflow_name
        (rewrite_name curr_env next_env (SqlWorkflow.workflow_name workflow)) workflow in
    (workflow, "," ++ next_env ++ " 环境待执行")
  else (workflow, "").

(** Lines 105-137 together: the promotion step. *)
Definition promote (workflow : SqlWorkflow.t) (db_relate : option DBEnvRelation.t)
  : string * string * SqlWorkflow.t * string * option Exn :=
  let '(curr_env, next_env, workflow, caught) := locate workflow db_relate in
  let '(workflow, prompt) := retag curr_env next_env workflow in
  (curr_env, next_env, workflow, prompt, caught).

(** Lines 160-164: an absent or empty value is falsy. *)
Definition is_notified (notify_phase_control : option string) : bool :=
  match notify_phase_control with
  | None => true
  | Some v =>
      if String.eqb v "" then true
      else PyStr.mem "Execute" (PyStr.split "," v)
  end.

(** Lines 138-166, after the promotion step. *)
Definition finish_up (E : Env) (workflow_id : Z) (workflow : SqlWorkflow.t)
    (curr_env curr_workflow_rst prompt : string) : M unit :=
  let! _ := save_workflow E site_final_save workflow in
  let! audit_id := detail_by_workflow_id workflow_id in
  let! _ :=
    add_log E
      {| audit_id := audit_id;
         operation_type := 6;
         operation_type_desc := curr_env ++ " 执行结束";
         operation_info := curr_env ++ " 环境执行结果：" ++ curr_workflow_rst ++ prompt;
         operator := "";
         operator_display := "系统" |} in
  let! _ :=
    if SqlWorkflow.syntax_type workflow =? 1
    then clear_instance_resources E
    else ret tt in
  let! cfg := gets notify_phase_control in
  if is_notified cfg then notify_for_execute E workflow else ret tt.

(** The connection check of lines 55-56 changes nothing the module can see
    and is left out. *)
Definition execute_callback (E : Env) (task : Task) : M unit :=
  let workflow_id := args0 task in
  let! workflow := get_workflow workflow_id in
  if negb (String.eqb (SqlWorkflow.status workflow) "workflow_executing")
  then raise (StatusNotExecuting (SqlWorkflow.id workflow))
  else
    let workflow := SqlWorkflow.set_finish_time (Some (stopped task)) workflow in
    let! (st, execute_result, cached) := outcome task workflow in
    let workflow := SqlWorkflow.set_status st workflow in
    let! _ := persist E task workflow execute_result cached in
    let! db_relate := first_relation E workflow in
    let curr_workflow_rst := get_status_display E (SqlWorkflow.status workflow) in
    let '(curr_env, next_env, workflow, prompt, caught) := promote workflow db_relate in
    let! _ := match caught with
              | Some e => log_error (Logged e)
              | None => ret tt
              end in
    finish_up E workflow_id workflow curr_env curr_workflow_rst prompt.

(** ** The promotion rule in the words of the spec

    The four slots of a link in their fixed order, the slot a workflow
    occupies (the first one equal to its target on both fields), the slot
    after it, and what it means for a slot to be configured. *)

Inductive EnvLabel : Type := dev | sit | uat | pro.

Definition label_name (e : EnvLabel) : string :=
  match e with dev => "dev" | sit => "sit" | uat => "uat" | pro => "pro" end.

Definition slot (r : DBEnvRelation.t) (e : EnvLabel) : option Z * option string :=
  match e with
  | dev => (DBEnvRelation.dev_instance r, DBEnvRelation.dev_database r)
  | sit => (DBEnvRelation.sit_instance r, DBEnvRelation.sit_database r)
  | uat => (DBEnvRelation.uat_instance r, DBEnvRelation.uat_database r)
  | pro => (DBEnvRelation.pro_instance r, DBEnvRelation.pro_database r)
  end.

Definition following (e : EnvLabel) : option EnvLabel :=
  match e with dev => Some sit | sit => Some uat | uat => Some pro | pro => None end.

Definition spec_occupies (workflow : SqlWorkflow.t) (r : DBEnvRelation.t) (e : EnvLabel) : Prop :=
  slot r e = (Some (SqlWorkflow.instance workflow), Some (SqlWorkflow.db_name workflow)).

Global Instance spec_occupies_dec workflow r e : Decision (spec_occupies workflow r e).
Proof. unfold spec_occupies. apply _. Defined.

Definition spec_resolve (workflow : SqlWorkflow.t) (r : DBEnvRelation.t) : option EnvLabel :=
  List.find (fun e => bool_decide (spec_occupies workflow r e)) [dev; sit; uat; pro].

(** Non-null instance, non-empty database. *)
Definition spec_configured (s : option Z * option string) (i : Z) (d : string) : Prop :=
  s = (Some i, Some d) /\ d <> "".

(** The next slot exists and is fully configured: it is [e'], holding
    [(i, d)]. *)
Definition spec_next_slot (workflow : SqlWorkflow.t) (db_relate : option DBEnvRelation.t)
    (e' : EnvLabel) (i : Z) (d : string) : Prop :=
  exists r e, db_relate = Some r /\ spec_resolve workflow r = Some e /\
              following e = Some e' /\ spec_configured (slot r e') i d.

(** The enabled phase in the words of the spec: "Execute" is one of the
    comma-separated phases. *)
Definition spec_phase_enabled (v : string) : Prop :=
  In "Execute" (PyStr.split "," v).

(** Notification as the hook decides it: enabled when the value is absent, when it
    is the empty string, or when "Execute" is one of its phases. *)
Definition notification_enabled (cfg : option string) : Prop :=
  cfg = None \/ cfg = Some "" \/ exists v, cfg = Some v /\ spec_phase_enabled v.

(** ** Sample data *)

Module Sample.

(** Workflow 42 of the spec's scenario: DDL, running on instance 1,
    database D1. *)
Definition wf (name status : string) : SqlWorkflow.t :=
  SqlWorkflow.Build 42 status 1 "D1" name 1 None.

(** dev = (1, D1), sit = (2, D2), nothing further. *)
Definition link : DBEnvRelation.t :=
  DBEnvRelation.Build (Some 1) (Some "D1") (Some 2) (Some "D2") None None None None.

Definition world (name status : string) (cfg : option string) : World :=
  {| workflows := {[ 42 := wf name status ]};
     contents := {[ 42 := SqlWorkflowContent.Build "alter table t add index i(a)" NoResult ]};
     relations := [link];
     audits := {[ 42 := 7 ]};
     audit_log := [];
     redis_keys := ["arch:insRes:1"; "session"];
     notified := [];
     engine_calls := [];
     error_log := [];
     notify_phase_control := cfg |}.

(** The same world with an empty table of links. *)
Definition unlinked (name status : string) (cfg : option string) : World :=
  {| workflows := {[ 42 := wf name status ]};
     contents := {[ 42 := SqlWorkflowContent.Build "alter table t add index i(a)" NoResult ]};
     relations := [];
     audits := {[ 42 := 7 ]};
     audit_log := [];
     redis_keys := ["arch:insRes:1"; "session"];
     notified := [];
     engine_calls := [];
     error_log := [];
     notify_phase_control := cfg |}.

(** Every collaborator answers. *)
Definition calm : Env :=
  {| fault := fun _ => None; get_status_display := fun s => s;
     engine_result := PyReviewSet (ReviewSet_new "") |}.

(** The collaborators reached at the listed sites raise. *)
Definition failing (sites : Site -> bool) : Env :=
  {| fault := fun s => if sites s then Some "gone away" else None;
     get_status_display := fun s => s;
     engine_result := PyReviewSet (ReviewSet_new "") |}.

Definition clean_result : PyValue := PyReviewSet (Build_ReviewSet "alter table t add index i(a)" false false []).

Definition task (success : bool) (result : PyValue) : Task :=
  {| args0 := 42; success := success; result := result; stopped := 1700000000 |}.

End Sample.

(** ** Conditions on one reconciliation *)

(** The outcome can be classified: a task reported successful carries a
    review set, and a failed one belongs to a workflow whose content row is
    there to read the SQL from. *)
Definition classifies (task : Task) (W : World) : Prop :=
  if success task then exists r, result task = PyReviewSet r
  else is_Some (contents W !! args0 task).

(** The message of the first of the three calls of lines 87-89 that
    raises. *)
Definition primary_fault (E : Env) : option string :=
  match fault E site_json with
  | Some msg => Some msg
  | None =>
      match fault E site_content_save with
      | Some msg => Some msg
      | None => fault E site_workflow_save
      end
  end.

(** ** Reasoning about runs

    [runs m W Q]: running [m] from [W] ends in a result and a world that
    satisfy [Q]. *)
Definition runs {A} (m : M A) (W : World) (Q : Result A -> World -> Prop) : Prop :=
  Q (fst (m W)) (snd (m W)).

(** The status values a dispatch accepts. *)
Definition dispatchable (v : string) : Prop :=
  v = "workflow_queuing" \/ v = "workflow_timingtask".

(** The status values a reconciliation may leave behind. *)
Definition settled (v : string) : Prop :=
  v = "workflow_finish" \/ v = "workflow_exception" \/ v = "workflow_review_pass".

(** The row of workflow [k] carries a settled status. *)
Definition row_settled (k : Z) (W : World) : Prop :=
  exists w, workflows W !! k = Some w /\ settled (SqlWorkflow.status w).

(** * Properties *)

(** ** Strings *)

Example split_phases : PyStr.split "," "Apply,Execute" = ["Apply"; "Execute"]%string.
Proof. reflexivity. Qed.

Example split_empty : PyStr.split "," "" = [""]%string.
Proof. reflexivity. Qed.

Example split_trailing : PyStr.split "," "a,,b," = ["a"; ""; "b"; ""]%string.
Proof. reflexivity. Qed.

Example replace_all_occurrences :
  PyStr.replace "[dev]a[dev]b" "[dev]" "[sit]" = "[sit]a[sit]b".
Proof. reflexivity. Qed.

Example replace_non_overlapping : PyStr.replace "aaa" "aa" "b" = "ba".
Proof. reflexivity. Qed.

Lemma mem_In (x : string) (l : list string) : PyStr.mem x l = true <-> In x l.
Proof.
  unfold PyStr.mem. rewrite existsb_exists. split.
  - intros (y & Hy & Heq). apply String.eqb_eq in Heq. now subst.
  - intros H. exists x. split; [assumption | apply String.eqb_refl].
Qed.

(** ** Outcome classification *)

(** C5: a failed task, whatever its payload, is classified as an exception
    with a result of exactly one row: stage "Execute failed", errlevel 2,
    status label "异常终止", the payload as message and the SQL text of the
    workflow as sql. *)
Theorem classify_failed_task (result : PyValue) (sql_content : string) :
  exists execute_result row,
    classify false result sql_content = Ok ("workflow_exception", execute_result) /\
    rows execute_result = [row] /\
    stage row = "Execute failed" /\
    errlevel row = 2 /\
    stagestatus row = "异常终止" /\
    errormessage row = result /\
    sql row = sql_content /\
    full_sql execute_result = sql_content.
Proof.
  eexists. eexists. split; [reflexivity |].
  cbn. repeat split.
Qed.

(** The SQL text plays no part when the task succeeded. *)
Lemma classify_success_ignores_sql (result : PyValue) (s1 s2 : string) :
  classify true result s1 = classify true result s2.
Proof. reflexivity. Qed.

(** The classified status is never anything but exception or finish. *)
Lemma classify_status success result sql_content st execute_result :
  classify success result sql_content = Ok (st, execute_result) ->
  st = "workflow_exception" \/ st = "workflow_finish".
Proof.
  unfold classify. destruct success; cbn.
  - destruct result as [| |r]; try discriminate.
    destruct (warning r || error r); intros [= <- _]; auto.
  - intros [= <- _]. auto.
Qed.

(** C6, as the code has it: the classification is a function of its three
    inputs, and it returns a (status, result) pair whenever the task failed
    or its payload is a review set; a raised flag gives exception and a clean
    result gives finish, the result being the payload itself. *)
Theorem classify_total_on_review_sets (success : bool) (result : PyValue) (sql_content : string) :
  success = false \/ (exists r, result = PyReviewSet r) ->
  (exists st execute_result, classify success result sql_content = Ok (st, execute_result)) /\
  (forall r, success = true -> result = PyReviewSet r ->
     warning r = true \/ error r = true ->
     classify success result sql_content = Ok ("workflow_exception", r)) /\
  (forall r, success = true -> result = PyReviewSet r ->
     warning r = false -> error r = false ->
     classify success result sql_content = Ok ("workflow_finish", r)).
Proof.
  intros Hin. split; [| split].
  - destruct Hin as [-> | [r ->]].
    + cbn. eauto.
    + destruct success; cbn.
      * destruct (warning r || error r); eauto.
      * eauto.
  - intros r -> -> Hflag. cbn.
    destruct Hflag as [-> | ->]; [reflexivity | now rewrite orb_true_r].
  - intros r -> -> Hw He. cbn. now rewrite Hw, He.
Qed.

Lemma classify_total_on_review_sets_witness :
  (true = false \/ (exists r, Sample.clean_result = PyReviewSet r)) /\
  exists st execute_result, classify true Sample.clean_result "" = Ok (st, execute_result).
Proof.
  assert (H : true = false \/ (exists r, Sample.clean_result = PyReviewSet r)).
  { right. eexists. reflexivity. }
  split; [exact H |].
  exact (proj1 (classify_total_on_review_sets true Sample.clean_result "" H)).
Defined.

(** C6 as stated fails: a task reported successful whose payload is not a
    review set makes the classification raise. *)
Lemma classify_raises_on_unstructured_success :
  classify true PyNone "select 1" = Raise (AttributeError "NoneType" "warning") /\
  classify true (PyText "done") "select 1" = Raise (AttributeError "str" "warning") /\
  ~ (exists st execute_result, classify true PyNone "select 1" = Ok (st, execute_result)).
Proof.
  split; [reflexivity | split; [reflexivity |]].
  intros (st & er & H). discriminate H.
Qed.

(** ** The promotion step *)

Lemma at_slot_decide workflow i d :
  at_slot workflow i d =
  bool_decide ((i, d) = (Some (SqlWorkflow.instance workflow), Some (SqlWorkflow.db_name workflow))).
Proof.
  unfold at_slot. destruct i as [i|], d as [d|]; try (symmetry; apply bool_decide_eq_false; congruence).
  destruct (Z.eqb_spec (SqlWorkflow.instance workflow) i) as [->|Hi]; cbn.
  - destruct (String.eqb_spec (SqlWorkflow.db_name workflow) d) as [->|Hd].
    + symmetry. now apply bool_decide_eq_true.
    + symmetry. apply bool_decide_eq_false. congruence.
  - symmetry. apply bool_decide_eq_false. congruence.
Qed.

(** The chain of tests of lines 108-124 finds the slot the spec's resolver
    finds. *)
Lemma locate_resolve workflow r :
  locate workflow (Some r) =
  match spec_resolve workflow r with
  | None => ("", "", workflow, None)
  | Some e =>
      match following e with
      | None => (label_name e, "", workflow, None)
      | Some e' =>
          advance workflow (label_name e) (label_name e') (fst (slot r e')) (snd (slot r e'))
      end
  end.
Proof.
  unfold locate, spec_resolve, spec_occupies. cbn [find slot].
  rewrite !at_slot_decide.
  destruct (bool_decide ((DBEnvRelation.dev_instance r, _) = _)); [reflexivity |].
  destruct (bool_decide ((DBEnvRelation.sit_instance r, _) = _)); [reflexivity |].
  destruct (bool_decide ((DBEnvRelation.uat_instance r, _) = _)); [reflexivity |].
  destruct (bool_decide ((DBEnvRelation.pro_instance r, _) = _)); reflexivity.
Qed.

Lemma advance_configured workflow curr next s i d :
  spec_configured s i d ->
  advance workflow curr next (fst s) (snd s) =
    (curr, next, SqlWorkflow.set_target i d workflow, None).
Proof.
  intros [-> Hd]. cbn. destruct d; [congruence | reflexivity].
Qed.

Lemma advance_cases workflow curr next s :
  (exists i d, spec_configured s i d) \/
  ((forall i d, ~ spec_configured s i d) /\
   exists caught, advance workflow curr next (fst s) (snd s) = (curr, "", workflow, caught)).
Proof.
  destruct s as [[i|] [d|]]; cbn.
  - destruct d as [|c d].
    + right. split; [intros i' d' [[= <- <-] Hne]; congruence | eauto].
    + left. exists i, (String c d). split; [reflexivity | discriminate].
  - right. split; [intros i' d' [[=] _] | eauto].
  - right. split; [intros i' d' [[=] _] | eauto].
  - right. split; [intros i' d' [[=] _] | eauto].
Qed.

Lemma label_name_nonempty e : label_name e <> "".
Proof. destruct e; discriminate. Qed.

Lemma spec_next_slot_functional workflow db_relate e1 i1 d1 e2 i2 d2 :
  spec_next_slot workflow db_relate e1 i1 d1 ->
  spec_next_slot workflow db_relate e2 i2 d2 ->
  e1 = e2 /\ i1 = i2 /\ d1 = d2.
Proof.
  intros (r & e & -> & Hres & Hnext & Hs & _) (r' & e0 & [= <-] & Hres' & Hnext' & Hs' & _).
  rewrite Hres in Hres'. injection Hres' as <-.
  rewrite Hnext in Hnext'. injection Hnext' as <-.
  rewrite Hs in Hs'. now injection Hs' as <- <-.
Qed.

(** What the promotion step does, case by case. *)
Lemma promote_cases workflow db_relate :
  (exists e e' i d,
      spec_next_slot workflow db_relate e' i d /\
      (exists r, db_relate = Some r /\ spec_resolve workflow r = Some e) /\
      promote workflow db_relate =
        (label_name e, label_name e',
         SqlWorkflow.set_workflow_name
           (rewrite_name (label_name e) (label_name e') (SqlWorkflow.workflow_name workflow))
           (SqlWorkflow.set_status "workflow_review_pass"
              (SqlWorkflow.set_target i d workflow)),
         "," ++ label_name e' ++ " 环境待执行", None)) \/
  ((forall e' i d, ~ spec_next_slot workflow db_relate e' i d) /\
   exists curr_env caught, promote workflow db_relate = (curr_env, "", workflow, "", caught)).
Proof.
  unfold promote. destruct db_relate as [r|].
  2:{ right. split; [intros e' i d (r & e & [=] & _) | cbn; eauto]. }
  rewrite locate_resolve.
  destruct (spec_resolve workflow r) as [e|] eqn:Hres.
  2:{ right. split; [| cbn; eauto].
      intros e' i d (r' & e & [= <-] & Hres' & _). congruence. }
  destruct (following e) as [e'|] eqn:Hnext.
  2:{ right. split; [| cbn; eauto].
      intros e' i d (r' & e0 & [= <-] & Hres' & Hnext' & _). congruence. }
  destruct (advance_cases workflow (label_name e) (label_name e') (slot r e'))
    as [(i & d & Hcfg) | (Hno & caught & ->)].
  - left. exists e, e', i, d. split; [| split].
    + exists r, e. auto.
    + eauto.
    + rewrite (advance_configured _ _ _ _ _ _ Hcfg).
      unfold retag. destruct e'; reflexivity.
  - right. split; [| cbn; eauto].
    intros e1 i d (r' & e0 & [= <-] & Hres' & Hnext' & Hcfg).
    rewrite Hres in Hres'. injection Hres' as <-.
    rewrite Hnext in Hnext'. injection Hnext' as <-.
    exact (Hno i d Hcfg).
Qed.

(** C1, as the code has it: the promotion step promotes exactly when the
    slot after the one the workflow occupies exists and is configured
    (non-null instance, non-empty database), whatever the classified status;
    a promotion re-targets the workflow to that slot and sets review_pass;
    without one the workflow, and so its instance, db_name and status, is
    unchanged. *)
Theorem promotion_iff_next_slot_configured
    (workflow : SqlWorkflow.t) (db_relate : option DBEnvRelation.t) :
  let '(curr_env, next_env, workflow', prompt, caught) := promote workflow db_relate in
  (next_env <> "" <-> exists e' i d, spec_next_slot workflow db_relate e' i d) /\
  (forall e' i d, spec_next_slot workflow db_relate e' i d ->
     next_env = label_name e' /\
     SqlWorkflow.instance workflow' = i /\
     SqlWorkflow.db_name workflow' = d /\
     SqlWorkflow.status workflow' = "workflow_review_pass") /\
  (next_env = "" ->
     SqlWorkflow.instance workflow' = SqlWorkflow.instance workflow /\
     SqlWorkflow.db_name workflow' = SqlWorkflow.db_name workflow /\
     SqlWorkflow.status workflow' = SqlWorkflow.status workflow).
Proof.
  destruct (promote_cases workflow db_relate)
    as [(e & e' & i & d & Hslot & _ & ->) | (Hno & curr_env & caught & ->)].
  - split; [| split].
    + split; [eauto | intros _; apply label_name_nonempty].
    + intros e2 i2 d2 Hslot2.
      destruct (spec_next_slot_functional _ _ _ _ _ _ _ _ Hslot Hslot2) as (<- & <- & <-).
      cbn. auto.
    + intros Hempty. now apply label_name_nonempty in Hempty.
  - split; [| split].
    + split; [congruence | intros (e' & i & d & H); now apply Hno in H].
    + intros e' i d H. now apply Hno in H.
    + auto.
Qed.

(** C1 as stated fails: the task of workflow 42 failed, so its run is
    classified as an exception, and the workflow is promoted from dev to sit
    all the same; the stored row ends as review_pass on instance 2. *)
Lemma promotion_after_exception :
  let task := Sample.task false (PyText "Traceback: lost connection") in
  let W := Sample.world "[dev]Add index" "workflow_executing" None in
  let workflow := Sample.wf "[dev]Add index" "workflow_exception" in
  (exists execute_result,
     classify (success task) (result task) "alter table t add index i(a)"
       = Ok ("workflow_exception", execute_result)) /\
  (let '(_, next_env, workflow', _, _) := promote workflow (Some Sample.link) in
   next_env = "sit" /\
   SqlWorkflow.status workflow' = "workflow_review_pass" /\
   SqlWorkflow.instance workflow' = 2 /\
   ~ (next_env <> "" <->
      SqlWorkflow.status workflow <> "workflow_exception" /\
      exists e' i d, spec_next_slot workflow (Some Sample.link) e' i d)) /\
  workflows (snd (execute_callback Sample.calm task W)) !! 42 =
    Some (SqlWorkflow.Build 42 "workflow_review_pass" 2 "D2" "[sit]Add index" 1
            (Some 1700000000)).
Proof.
  split; [| split].
  - eexists. reflexivity.
  - cbn. repeat split; try reflexivity.
    intros [H _]. destruct H as [H _]; [discriminate |]. now apply H.
  - vm_compute. reflexivity.
Qed.

(** ** The name tag *)

Lemma rewrite_name_untagged curr_env next_env name :
  match_env_tag name = false ->
  rewrite_name curr_env next_env name = PyStr.mark next_env ++ name.
Proof. intros H. unfold rewrite_name. now rewrite H. Qed.

Example rewrite_name_dev_tag : rewrite_name "dev" "sit" "[dev]Add index" = "[sit]Add index".
Proof. reflexivity. Qed.

Example rewrite_name_no_tag : rewrite_name "dev" "sit" "Add index" = "[sit]Add index".
Proof. reflexivity. Qed.

(** C7 at its failing inputs: promoted from dev to sit, a name that starts
    with the tag of another environment keeps that tag, and a name that
    repeats the dev tag has every occurrence rewritten, not the leading one
    alone. *)
Theorem rewrite_name_misses_leading_tag :
  (let '(_, next_env, workflow', _, _) :=
     promote (Sample.wf "[pro]Add index" "workflow_finish") (Some Sample.link) in
   next_env = "sit" /\
   SqlWorkflow.instance workflow' = 2 /\
   SqlWorkflow.workflow_name workflow' = "[pro]Add index") /\
  rewrite_name "dev" "sit" "[pro]Add index" = "[pro]Add index" /\
  rewrite_name "dev" "sit" "[dev]copy of [dev]Add index" = "[sit]copy of [sit]Add index".
Proof. cbn. repeat split. Qed.

(** ** The notification switch *)

Lemma is_notified_spec (cfg : option string) :
  is_notified cfg = true <->
  cfg = None \/ cfg = Some "" \/ exists v, cfg = Some v /\ spec_phase_enabled v.
Proof.
  unfold is_notified, spec_phase_enabled. destruct cfg as [v|].
  - destruct (String.eqb_spec v "") as [->|Hv].
    + split; auto.
    + rewrite mem_In. split.
      * intros H. right. right. eauto.
      * intros [H | [[= H] | (v' & [= <-] & H)]]; [discriminate | contradiction | assumption].
  - split; auto.
Qed.

(** ** Rules for runs *)

Section RunRules.
Context {A B : Type}.
Implicit Types (W : World) (Q : Result B -> World -> Prop).

Lemma runs_ret (b : B) W Q : Q (Ok b) W -> runs (ret b) W Q.
Proof. exact (fun H => H). Qed.

Lemma runs_raise (e : Exn) W Q : Q (Raise e) W -> runs (raise e) W Q.
Proof. exact (fun H => H). Qed.

Lemma runs_bind (m : M A) (k : A -> M B) W Q :
  runs m W (fun r W' => match r with
                        | Ok a => runs (k a) W' Q
                        | Raise e => Q (Raise e) W'
                        end) ->
  runs (bind m k) W Q.
Proof. unfold runs, bind. destruct (m W) as [[a|e] W']; exact (fun H => H). Qed.

Lemma runs_try_except (m : M B) (h : Exn -> M B) W Q :
  runs m W (fun r W' => match r with
                        | Ok b => Q (Ok b) W'
                        | Raise e => runs (h e) W' Q
                        end) ->
  runs (try_except m h) W Q.
Proof. unfold runs, try_except. destruct (m W) as [[b|e] W']; exact (fun H => H). Qed.

Lemma runs_gets (f : World -> B) W Q : Q (Ok (f W)) W -> runs (gets f) W Q.
Proof. exact (fun H => H). Qed.

Lemma runs_lift (r : Result B) W Q : Q r W -> runs (lift r) W Q.
Proof. destruct r; exact (fun H => H). Qed.

Lemma runs_weaken (m : M B) W Q (Q' : Result B -> World -> Prop) :
  runs m W Q -> (forall r W', Q r W' -> Q' r W') -> runs m W Q'.
Proof. unfold runs. auto. Qed.

Lemma runs_eq (m : M B) W Q r W' : m W = (r, W') -> (runs m W Q <-> Q r W').
Proof. unfold runs. now intros ->. Qed.
End RunRules.

Lemma runs_modify (f : World -> World) W (Q : Result unit -> World -> Prop) :
  Q (Ok tt) (f W) -> runs (modify f) W Q.
Proof. exact (fun H => H). Qed.

Lemma runs_call E site W (Q : Result unit -> World -> Prop) :
  match fault E site with
  | Some msg => Q (Raise (Failure msg)) W
  | None => Q (Ok tt) W
  end ->
  runs (call E site) W Q.
Proof. unfold call. destruct (fault E site); exact (fun H => H). Qed.

Lemma runs_get_workflow k W (Q : Result SqlWorkflow.t -> World -> Prop) :
  match workflows W !! k with
  | Some w => Q (Ok w) W
  | None => Q (Raise (DoesNotExist "SqlWorkflow")) W
  end ->
  runs (get_workflow k) W Q.
Proof. unfold runs, get_workflow. destruct (workflows W !! k); exact (fun H => H). Qed.

Lemma runs_get_content workflow cached W (Q : Result SqlWorkflowContent.t -> World -> Prop) :
  match cached with
  | Some c => Q (Ok c) W
  | None =>
      match contents W !! SqlWorkflow.id workflow with
      | Some c => Q (Ok c) W
      | None => Q (Raise (DoesNotExist "SqlWorkflowContent")) W
      end
  end ->
  runs (get_content workflow cached) W Q.
Proof.
  unfold runs, get_content. destruct cached; [exact (fun H => H) |].
  destruct (contents W !! SqlWorkflow.id workflow); exact (fun H => H).
Qed.

Lemma runs_detail_by_workflow_id k W (Q : Result Z -> World -> Prop) :
  match audits W !! k with
  | Some a => Q (Ok a) W
  | None => Q (Raise (DoesNotExist "WorkflowAudit")) W
  end ->
  runs (detail_by_workflow_id k) W Q.
Proof. unfold runs, detail_by_workflow_id. destruct (audits W !! k); exact (fun H => H). Qed.

(** One step of a run: the rule of the command at the head, then the case
    the rule asks about. *)
Ltac run_step :=
  lazymatch goal with
  | |- runs (bind _ _) _ _ => apply runs_bind
  | |- runs (try_except _ _) _ _ => apply runs_try_except
  | |- runs (ret _) _ _ => apply runs_ret
  | |- runs (raise _) _ _ => apply runs_raise
  | |- runs (modify _) _ _ => apply runs_modify
  | |- runs (gets _) _ _ => apply runs_gets
  | |- runs (lift ?r) _ _ => destruct r eqn:?; cbn [lift]
  | |- runs (call ?E ?s) _ _ => apply runs_call; destruct (fault E s) eqn:?
  | |- runs (get_workflow ?k) ?W _ =>
      apply runs_get_workflow; destruct (workflows W !! k) eqn:?
  | |- runs (get_content _ _) _ _ =>
      apply runs_get_content; cbv beta iota;
      lazymatch goal with
      | |- match contents ?W !! ?k with _ => _ end => destruct (contents W !! k) eqn:?
      | |- _ => idtac
      end
  | |- runs (detail_by_workflow_id ?k) ?W _ =>
      apply runs_detail_by_workflow_id; destruct (audits W !! k) eqn:?
  | |- runs (save_status _ _ _) _ _ => unfold save_status
  | |- runs (save_workflow _ _ _) _ _ => unfold save_workflow
  | |- runs (save_content _ _ _ _) _ _ => unfold save_content
  | |- runs (update_workflow _ _ _ _) _ _ => unfold update_workflow
  | |- runs (json _ _) _ _ => unfold json
  | |- runs (add_log _ _) _ _ => unfold add_log
  | |- runs (log_error _) _ _ => unfold log_error
  | |- runs (execute_workflow _ _) _ _ => unfold execute_workflow
  | |- runs (clear_instance_resources _) _ _ => unfold clear_instance_resources
  | |- runs (notify_for_execute _ _) _ _ => unfold notify_for_execute
  | |- runs (first_relation _ _) _ _ => unfold first_relation
  | |- runs (outcome _ _) _ _ => unfold outcome
  | |- runs (persist _ _ _ _ _) _ _ => unfold persist
  | |- runs (finish_up _ _ _ _ _ _) _ _ => unfold finish_up
  | |- runs (match ?x with _ => _ end) _ _ => destruct x eqn:?
  end; cbv beta iota.

Ltac run := repeat run_step.

(** ** Dispatch *)

Lemma dispatchable_mem v :
  PyStr.mem v ["workflow_queuing"; "workflow_timingtask"]%string = true <-> dispatchable v.
Proof.
  rewrite mem_In. unfold dispatchable. cbn. intuition congruence.
Qed.

(** A workflow that is not queuing or scheduled is refused, and the world is
    as it was. *)
Lemma execute_refused E workflow_id user W w :
  workflows W !! workflow_id = Some w ->
  ~ dispatchable (SqlWorkflow.status w) ->
  execute E workflow_id user W = (Raise StatusNotDispatchable, W).
Proof.
  intros Hw Hst. unfold execute, bind, get_workflow. rewrite Hw.
  destruct (PyStr.mem _ _) eqn:Hmem; [| reflexivity].
  now apply dispatchable_mem in Hmem.
Qed.

(** What a dispatch of a dispatchable workflow leaves behind, however it
    ends. *)
Lemma execute_accepted E workflow_id user W w :
  workflows W !! workflow_id = Some w ->
  dispatchable (SqlWorkflow.status w) ->
  runs (execute E workflow_id user) W (fun r W' =>
    match r with
    | Ok v =>
        v = engine_result E /\
        fault E site_status_save = None /\ fault E site_add_log = None /\
        fault E site_engine = None /\
        workflows W' = alter (SqlWorkflow.set_status "workflow_executing") workflow_id (workflows W) /\
        (exists entry, audit_log W' = (audit_log W ++ [entry])%list /\
                       operation_type entry = 5 /\
                       audits W !! workflow_id = Some (audit_id entry)) /\
        engine_calls W' = (engine_calls W ++ [w])%list
    | Raise e =>
        e <> StatusNotDispatchable /\
        (fault E site_status_save <> None \/ audits W !! workflow_id = None \/
         fault E site_add_log <> None \/ fault E site_engine <> None)
    end).
Proof.
  intros Hw Hst. apply dispatchable_mem in Hst.
  unfold execute. run_step. run_step; [| congruence].
  injection Hw as ->. rewrite Hst. cbn [negb].
  run; cbn; repeat split; eauto; try congruence.
Qed.

(** Past the guard, either the status write of line 30 is refused and
    nothing has changed, or the row is executing, however the call ends. *)
Lemma execute_past_guard E workflow_id user W w :
  workflows W !! workflow_id = Some w ->
  dispatchable (SqlWorkflow.status w) ->
  runs (execute E workflow_id user) W (fun r W' =>
    (exists msg, fault E site_status_save = Some msg /\ r = Raise (Failure msg) /\ W' = W) \/
    (fault E site_status_save = None /\
     workflows W' !! workflow_id = Some (SqlWorkflow.set_status "workflow_executing" w))).
Proof.
  intros Hw Hst. apply dispatchable_mem in Hst.
  unfold execute. run_step. run_step; [| congruence].
  injection Hw as ->. rewrite Hst. cbn [negb].
  run.
  all: try (left; eexists; repeat split; reflexivity).
  all: right; split; [reflexivity |].
  all: cbn; rewrite lookup_alter_eq, Heqo; reflexivity.
Qed.

(** C2, as the code has it: for a workflow in the table, dispatch is refused
    with the wrong-status exception exactly when the status is neither
    queuing nor timingtask, and a refused dispatch has changed nothing; a
    dispatch that returns has set the status of the row to executing (and
    nothing else in the table) and appended exactly one audit entry; with
    collaborators that answer, a dispatchable workflow is dispatched.  A
    dispatch that fails past the guard fails with another exception, and
    unless it is the status write itself that was refused, the row is left
    executing. *)
Theorem execute_guard_and_effect E workflow_id user W w :
  workflows W !! workflow_id = Some w ->
  (fst (execute E workflow_id user W) = Raise StatusNotDispatchable <->
   ~ dispatchable (SqlWorkflow.status w)) /\
  (fst (execute E workflow_id user W) = Raise StatusNotDispatchable ->
   snd (execute E workflow_id user W) = W) /\
  (forall v, fst (execute E workflow_id user W) = Ok v ->
     let W' := snd (execute E workflow_id user W) in
     workflows W' !! workflow_id = Some (SqlWorkflow.set_status "workflow_executing" w) /\
     (forall k, k <> workflow_id -> workflows W' !! k = workflows W !! k) /\
     exists entry, audit_log W' = (audit_log W ++ [entry])%list) /\
  (dispatchable (SqlWorkflow.status w) ->
   is_Some (audits W !! workflow_id) ->
   fault E site_status_save = None -> fault E site_add_log = None ->
   fault E site_engine = None ->
   fst (execute E workflow_id user W) = Ok (engine_result E)) /\
  (forall e, fst (execute E workflow_id user W) = Raise e ->
     e <> StatusNotDispatchable ->
     dispatchable (SqlWorkflow.status w) /\
     ((fault E site_status_save <> None /\ snd (execute E workflow_id user W) = W) \/
      (fault E site_status_save = None /\
       workflows (snd (execute E workflow_id user W)) !! workflow_id =
         Some (SqlWorkflow.set_status "workflow_executing" w)))).
Proof.
  intros Hw.
  assert (Hdec : dispatchable (SqlWorkflow.status w) \/ ~ dispatchable (SqlWorkflow.status w)).
  { rewrite <- dispatchable_mem. destruct (PyStr.mem _ _); [left | right]; congruence. }
  destruct Hdec as [Hst | Hst].
  - pose proof (execute_accepted E workflow_id user W w Hw Hst) as Hrun.
    pose proof (execute_past_guard E workflow_id user W w Hw Hst) as Hpast.
    unfold runs in Hrun, Hpast.
    destruct (execute E workflow_id user W) as [[v|e] W']; cbn [fst snd] in *.
    + destruct Hrun as (-> & _ & _ & _ & Hrows & (entry & Hlog & _) & _).
      split; [| split; [| split; [| split]]].
      * split; [discriminate | tauto].
      * discriminate.
      * intros v' _. rewrite Hrows. split; [| split].
        -- rewrite lookup_alter_eq, Hw. reflexivity.
        -- intros k Hk. now rewrite lookup_alter_ne.
        -- eauto.
      * reflexivity.
      * discriminate.
    + destruct Hrun as (Hne & Hcause).
      split; [| split; [| split; [| split]]].
      * split; [congruence | tauto].
      * congruence.
      * discriminate.
      * intros _ [a Ha] H1 H2 H3. exfalso.
        destruct Hcause as [H | [H | [H | H]]]; congruence.
      * intros e' _ _. split; [exact Hst |].
        destruct Hpast as [(msg & Hf & _ & ->) | Hrow]; [left | right; exact Hrow].
        split; [congruence | reflexivity].
  - rewrite (execute_refused E workflow_id user W w Hw Hst). cbn [fst snd].
    split; [| split; [| split; [| split]]].
    + tauto.
    + reflexivity.
    + discriminate.
    + tauto.
    + intros e [= <-] Hne. congruence.
Qed.

Lemma execute_guard_and_effect_witness :
  let W := Sample.world "Add index" "workflow_queuing" None in
  workflows W !! 42 = Some (Sample.wf "Add index" "workflow_queuing") /\
  fst (execute Sample.calm 42 None W) = Ok (engine_result Sample.calm).
Proof.
  assert (Hw : workflows (Sample.world "Add index" "workflow_queuing" None) !! 42
               = Some (Sample.wf "Add index" "workflow_queuing")) by reflexivity.
  split; [exact Hw |].
  refine (proj1 (proj2 (proj2 (proj2
            (execute_guard_and_effect Sample.calm 42 None _ _ Hw)))) _ _ _ _ _).
  - left. reflexivity.
  - exists 7. reflexivity.
  - reflexivity.
  - reflexivity.
  - reflexivity.
Defined.

(** C2 as stated fails: a dispatch can fail with a side effect.  When the
    audit write raises, the dispatch raises and the row, queuing before, is
    executing; when the engine raises, the row is executing and the audit
    entry has been written. *)
Lemma execute_failure_with_side_effect :
  let W := Sample.world "Add index" "workflow_queuing" None in
  SqlWorkflow.status <$> workflows W !! 42 = Some "workflow_queuing" /\
  audit_log W = [] /\
  (let E := Sample.failing (fun s => match s with site_add_log => true | _ => false end) in
   let R := execute E 42 None W in
   fst R = Raise (Failure "gone away") /\
   SqlWorkflow.status <$> workflows (snd R) !! 42 = Some "workflow_executing" /\
   snd R <> W) /\
  (let E := Sample.failing (fun s => match s with site_engine => true | _ => false end) in
   let R := execute E 42 None W in
   fst R = Raise (Failure "gone away") /\
   SqlWorkflow.status <$> workflows (snd R) !! 42 = Some "workflow_executing" /\
   length (audit_log (snd R)) = 1%nat).
Proof.
  cbv zeta. split; [reflexivity | split; [reflexivity | split]].
  - split; [vm_compute; reflexivity | split; [vm_compute; reflexivity |]].
    intros H. apply (f_equal (fun X => SqlWorkflow.status <$> workflows X !! 42)) in H.
    vm_compute in H. discriminate H.
  - vm_compute. repeat split.
Qed.

(** C10: the record a successful dispatch hands to the engine is the one
    read from the table before the transition: it still carries the queuing
    or timingtask status and every other field as read, while the row in the
    table is executing. *)
Theorem execute_hands_over_loaded_record E workflow_id user W w v :
  workflows W !! workflow_id = Some w ->
  fst (execute E workflow_id user W) = Ok v ->
  let W' := snd (execute E workflow_id user W) in
  engine_calls W' = (engine_calls W ++ [w])%list /\
  dispatchable (SqlWorkflow.status w) /\
  SqlWorkflow.status w <> "workflow_executing" /\
  SqlWorkflow.status <$> workflows W' !! workflow_id = Some "workflow_executing".
Proof.
  intros Hw Hok.
  assert (Hst : dispatchable (SqlWorkflow.status w)).
  { rewrite <- dispatchable_mem.
    destruct (PyStr.mem _ _) eqn:Hmem; [reflexivity |]. exfalso.
    rewrite (execute_refused E workflow_id user W w Hw) in Hok; [discriminate |].
    rewrite <- dispatchable_mem. congruence. }
  pose proof (execute_accepted E workflow_id user W w Hw Hst) as Hrun.
  unfold runs in Hrun. cbv zeta.
  destruct (execute E workflow_id user W) as [[v'|e] W']; cbn [fst snd] in *; [| discriminate].
  destruct Hrun as (_ & _ & _ & _ & Hrows & _ & Hcalls).
  repeat split; try assumption.
  - destruct Hst as [H | H]; rewrite H; discriminate.
  - rewrite Hrows, lookup_alter_eq, Hw. reflexivity.
Qed.

Lemma execute_hands_over_loaded_record_witness :
  let W := Sample.world "Add index" "workflow_timingtask" None in
  engine_calls (snd (execute Sample.calm 42 None W)) =
    [Sample.wf "Add index" "workflow_timingtask"].
Proof.
  refine (proj1 (execute_hands_over_loaded_record Sample.calm 42 None
                   (Sample.world "Add index" "workflow_timingtask" None)
                   (Sample.wf "Add index" "workflow_timingtask")
                   (engine_result Sample.calm) _ _)).
  - reflexivity.
  - reflexivity.
Defined.

(** ** Reconciliation: the guard *)

Lemma classify_raise success result sql_content e :
  classify success result sql_content = Raise e ->
  exists obj, e = AttributeError obj "warning".
Proof.
  unfold classify. destruct success; cbn; [| discriminate].
  destruct result as [| |r]; try (intros [= <-]; eauto).
  destruct (warning r || error r); discriminate.
Qed.

Lemma execute_callback_refused E task W w :
  workflows W !! args0 task = Some w ->
  SqlWorkflow.status w <> "workflow_executing" ->
  execute_callback E task W = (Raise (StatusNotExecuting (SqlWorkflow.id w)), W).
Proof.
  intros Hw Hst. unfold execute_callback, bind, get_workflow. rewrite Hw.
  destruct (String.eqb_spec (SqlWorkflow.status w) "workflow_executing");
    [contradiction | reflexivity].
Qed.

(** Past the guard nothing raises the guard's exception. *)
Lemma execute_callback_accepted_exn E task W w :
  workflows W !! args0 task = Some w ->
  SqlWorkflow.status w = "workflow_executing" ->
  runs (execute_callback E task) W (fun r _ => forall i, r <> Raise (StatusNotExecuting i)).
Proof.
  intros Hw Hst. unfold execute_callback. cbv zeta.
  run_step. run_step; [| congruence].
  injection Hw as ->. rewrite Hst, String.eqb_refl. cbn [negb].
  run; intros i; try discriminate;
    match goal with
    | H : classify _ _ _ = Raise _ |- _ =>
        apply classify_raise in H; destruct H as [? ->]; discriminate
    end.
Qed.

(** C3: for a workflow in the table, the hook raises the
    status-not-executing exception exactly when the status read is not
    executing, and it does so with the world untouched: no field of the
    workflow or of its content has been written. *)
Theorem execute_callback_guard E task W w :
  workflows W !! args0 task = Some w ->
  ((exists i, fst (execute_callback E task W) = Raise (StatusNotExecuting i)) <->
   SqlWorkflow.status w <> "workflow_executing") /\
  (SqlWorkflow.status w <> "workflow_executing" ->
   execute_callback E task W = (Raise (StatusNotExecuting (SqlWorkflow.id w)), W)).
Proof.
  intros Hw. split; [split |].
  - intros [i Hi] Hst.
    exact (execute_callback_accepted_exn E task W w Hw Hst i Hi).
  - intros Hst. rewrite (execute_callback_refused E task W w Hw Hst). eauto.
  - apply execute_callback_refused, Hw.
Qed.

Lemma execute_callback_guard_witness :
  let W := Sample.world "Add index" "workflow_finish" None in
  let task := Sample.task true Sample.clean_result in
  execute_callback Sample.calm task W = (Raise (StatusNotExecuting 42), W).
Proof.
  refine (proj2 (execute_callback_guard Sample.calm (Sample.task true Sample.clean_result)
                   (Sample.world "Add index" "workflow_finish" None)
                   (Sample.wf "Add index" "workflow_finish") _) _).
  - reflexivity.
  - discriminate.
Defined.

(** ** Reconciliation: the status left behind *)

Lemma promote_keeps workflow db_relate curr_env next_env workflow' prompt caught :
  promote workflow db_relate = (curr_env, next_env, workflow', prompt, caught) ->
  SqlWorkflow.id workflow' = SqlWorkflow.id workflow /\
  SqlWorkflow.syntax_type workflow' = SqlWorkflow.syntax_type workflow /\
  SqlWorkflow.finish_time workflow' = SqlWorkflow.finish_time workflow /\
  (SqlWorkflow.status workflow' = SqlWorkflow.status workflow \/
   SqlWorkflow.status workflow' = "workflow_review_pass").
Proof.
  destruct (promote_cases workflow db_relate)
    as [(e & e' & i & d & _ & _ & ->) | (_ & c & k & ->)];
    intros [= <- <- <- <- <-]; cbn; auto.
Qed.

Lemma settled_classified success result sql_content st execute_result :
  classify success result sql_content = Ok (st, execute_result) -> settled st.
Proof. intros H. apply classify_status in H. unfold settled. tauto. Qed.

Lemma classifies_success task W e :
  classifies task W -> negb (success task) = false ->
  classify true (result task) "" = Raise e -> False.
Proof.
  unfold classifies. destruct (success task); [| discriminate].
  intros [r ->] _. cbn. destruct (warning r || error r); discriminate.
Qed.

Lemma settled_lookup_insert (ws : gmap Z SqlWorkflow.t) k k' w' :
  k' = k -> settled (SqlWorkflow.status w') ->
  exists w0, <[k' := w']> ws !! k = Some w0 /\ settled (SqlWorkflow.status w0).
Proof. intros <- H. exists w'. now rewrite lookup_insert_eq. Qed.

Lemma settled_lookup_alter (ws : gmap Z SqlWorkflow.t) k w f :
  ws !! k = Some w -> settled (SqlWorkflow.status (f w)) ->
  exists w0, alter f k ws !! k = Some w0 /\ settled (SqlWorkflow.status w0).
Proof. intros Hw H. exists (f w). now rewrite lookup_alter_eq, Hw. Qed.

(** Reads through the updates of a world and the setters of a workflow. *)
Ltac world_simpl :=
  cbn [workflows contents relations audits audit_log redis_keys notified engine_calls
       error_log notify_phase_control
       with_workflows with_contents with_audit_log with_redis_keys with_notified
       with_engine_calls with_error_log
       SqlWorkflow.id SqlWorkflow.status SqlWorkflow.instance SqlWorkflow.db_name
       SqlWorkflow.workflow_name SqlWorkflow.syntax_type SqlWorkflow.finish_time
       SqlWorkflow.set_status SqlWorkflow.set_target SqlWorkflow.set_workflow_name
       SqlWorkflow.set_finish_time fst snd] in *.

Ltac use_promote :=
  match goal with
  | H : promote _ _ = _ |- _ =>
      let Hid := fresh "Hpid" in let Hsy := fresh "Hpsy" in
      let Hft := fresh "Hpft" in let Hps := fresh "Hpst" in
      destruct (promote_keeps _ _ _ _ _ _ _ H) as (Hid & Hsy & Hft & Hps); clear H
  end.

(** Whatever happens past the guard, as long as the outcome can be
    classified and the forced update goes through, the row ends settled:
    either the first save wrote the classified status, or the forced update
    wrote exception, and the last save can only write the classified status
    or review_pass. *)
Lemma execute_callback_settles E task W w :
  workflows W !! args0 task = Some w ->
  SqlWorkflow.id w = args0 task ->
  SqlWorkflow.status w = "workflow_executing" ->
  classifies task W ->
  fault E site_forced_update = None ->
  runs (execute_callback E task) W (fun _ W' => row_settled (args0 task) W').
Proof.
  intros Hw Hid Hst Hcls Hforced. unfold execute_callback. cbv zeta.
  run_step. run_step; [| congruence].
  injection Hw as ->. rewrite Hst, String.eqb_refl. cbn [negb].
  run.
  all: subst; world_simpl; try congruence.
  all: try (exfalso; eapply classifies_success; eassumption).
  all: try match goal with
         | H : classify false _ _ = Raise _ |- _ => cbn in H; discriminate H
         end.
  all: try (unfold classifies in Hcls; destruct (success task); [discriminate |];
            destruct Hcls as [? Hcls]; congruence).
  all: try use_promote.
  all: unfold row_settled; world_simpl.
  all: repeat match goal with
         | H : classify _ _ _ = Ok _ |- _ => apply settled_classified in H
         end.
  all: first
         [ apply settled_lookup_insert;
           [congruence | world_simpl; unfold settled in *; intuition congruence]
         | eapply settled_lookup_alter;
           [eassumption | world_simpl; unfold settled in *; intuition congruence] ].
Qed.





(** ** Reconciliation: what is caught and what is not *)

Ltac leaf :=
  world_simpl; subst;
  repeat match goal with
         | |- _ /\ _ => split
         | |- _ -> _ => intro
         | |- ~ _ => intro
         | H : _ \/ _ |- _ => destruct H
         | H : exists _, _ |- _ => destruct H
         | H : _ /\ _ |- _ => destruct H
         | H : (_ =? _) = false |- _ => apply Z.eqb_neq in H
         end;
  simplify_eq; try congruence.

(** The world a reconciliation leaves when every collaborator past the
    first save answers: the row is the workflow the promotion step returned,
    the content holds the JSON of the classified result, or the text of the
    exception if one of lines 87-89 raised, one audit entry is appended, the
    cache is cleared for a DDL workflow and the notifier is called if
    enabled; the log receives the failure of the first save, if any, and
    then the exception caught while matching the environment, if any. *)
Lemma execute_callback_completes E task W w c st execute_result a
      curr_env next_env workflow' prompt caught :
  workflows W !! args0 task = Some w ->
  SqlWorkflow.id w = args0 task ->
  SqlWorkflow.status w = "workflow_executing" ->
  contents W !! args0 task = Some c ->
  classify (success task) (result task) (SqlWorkflowContent.sql_content c)
    = Ok (st, execute_result) ->
  audits W !! args0 task = Some a ->
  (forall s, s <> site_json -> s <> site_content_save -> s <> site_workflow_save ->
             fault E s = None) ->
  promote (SqlWorkflow.set_status st (SqlWorkflow.set_finish_time (Some (stopped task)) w))
          (List.find (relation_matches w) (relations W))
    = (curr_env, next_env, workflow', prompt, caught) ->
  runs (execute_callback E task) W (fun r W' =>
    r = Ok tt /\
    workflows W' !! args0 task = Some workflow' /\
    (forall j, j <> args0 task -> workflows W' !! j = workflows W !! j) /\
    contents W' !! args0 task =
      Some (SqlWorkflowContent.set_execute_result
              match primary_fault E with
              | None => Json execute_result
              | Some msg => TextSet msg
              end c) /\
    audit_log W' =
      (audit_log W ++
       [{| audit_id := a;
           operation_type := 6;
           operation_type_desc := curr_env ++ " 执行结束";
           operation_info :=
             curr_env ++ " 环境执行结果：" ++ get_status_display E st ++ prompt;
           operator := "";
           operator_display := "系统" |}])%list /\
    redis_keys W' =
      (if SqlWorkflow.syntax_type w =? 1
       then filter (fun k => negb (PyStr.contains "insRes" k)) (redis_keys W)
       else redis_keys W) /\
    notified W' =
      (if is_notified (notify_phase_control W)
       then (notified W ++ [workflow'])%list
       else notified W) /\
    error_log W' =
      ((error_log W ++
        match primary_fault E with
        | Some msg => [CallbackFailed (args0 task) (Failure msg)]
        | None => []
        end) ++
       match caught with
       | Some e => [Logged e]
       | None => []
       end)%list).
Proof.
  intros Hw Hid Hst Hc Hcl Ha Hcalm Hp.
  unfold execute_callback. cbv zeta.
  run_step. run_step; [| congruence].
  injection Hw as ->. rewrite Hst, String.eqb_refl. cbn [negb].
  unfold primary_fault.
  change (relation_matches w) with
    (relation_matches (SqlWorkflow.set_status st
       (SqlWorkflow.set_finish_time (Some (stopped task)) w))) in Hp.
  run.
  all: try match goal with
         | H : fault _ ?s = Some _ |- _ =>
             lazymatch s with
             | site_json => fail
             | site_content_save => fail
             | site_workflow_save => fail
             | _ => rewrite Hcalm in H by discriminate; discriminate H
             end
         end.
  all: world_simpl; rewrite ?Hid in *; try congruence.
  all: destruct (success task); cbn [negb] in *; try discriminate.
  all: try match goal with
         | H : classify true _ "" = _ |- _ =>
             change (classify true (result task) (SqlWorkflowContent.sql_content c))
               with (classify true (result task) "") in Hcl
         end.
  all: simplify_eq.
  all: try match goal with
         | H : classify _ _ _ = Raise _ |- _ => congruence
         end.
  all: repeat match goal with
         | H : classify ?x ?y ?z = Ok _, H' : classify ?x ?y ?z = Ok _ |- _ =>
             rewrite H in H'; simplify_eq
         end.
  all: repeat match goal with
         | H : <[_ := _]> _ !! _ = _ |- _ => rewrite lookup_insert_eq in H; simplify_eq
         end.
  all: match goal with
       | H : promote _ _ = _ |- _ =>
           tryif constr_eq H Hp then fail else (rewrite Hp in H; simplify_eq)
       end.
  all: destruct (promote_keeps _ _ _ _ _ _ _ Hp) as (Hpid & Hpsy & _ & _).
  all: world_simpl; rewrite ?Hpid, ?Hpsy, ?Hid in *.
  all: repeat match goal with
         | H : is_notified _ = _ |- _ => rewrite H; clear H
         | H : (_ =? _) = _ |- _ => rewrite H; clear H
         | H : fault _ _ = _ |- _ => rewrite H; clear H
         end.
  all: rewrite ?lookup_insert_eq.
  all: cbv beta iota; rewrite ?app_nil_r.
  all: repeat split; try reflexivity.
  all: intros j Hj; rewrite lookup_insert_ne by congruence;
       rewrite ?lookup_insert_ne, ?lookup_alter_ne by congruence; reflexivity.
Qed.

Lemma promote_missing_link workflow :
  promote workflow None =
    ("", "", workflow, "", Some (AttributeError "NoneType" "dev_instance")).
Proof. reflexivity. Qed.

Lemma promote_unset_database workflow r e e' i :
  spec_resolve workflow r = Some e ->
  following e = Some e' ->
  slot r e' = (Some i, None) ->
  promote workflow (Some r) =
    (label_name e, "", workflow, "",
     Some (TypeError "object of type 'NoneType' has no len()")).
Proof.
  intros Hres Hfol Hslot. unfold promote.
  rewrite locate_resolve, Hres, Hfol. unfold advance. rewrite Hslot. reflexivity.
Qed.

Lemma classifies_classify task W c :
  classifies task W ->
  exists st execute_result,
    classify (success task) (result task) (SqlWorkflowContent.sql_content c)
      = Ok (st, execute_result).
Proof.
  unfold classifies. destruct (success task).
  - intros [r ->]. cbn. destruct (warning r || error r); eauto.
  - intros _. cbn. eauto.
Qed.

(** A failure of the link query, of the last save, of the audit lookup or
    of the audit write ends the call before the audit entry, the cache and
    the notifier; a failure of the cache ends it before the notifier; a
    failure of the notifier ends it. *)
Lemma execute_callback_propagates E task W :
  runs (execute_callback E task) W (fun r W' =>
    (fault E site_relation_query <> None \/ fault E site_final_save <> None \/
     audits W !! args0 task = None \/ fault E site_add_log <> None ->
     r <> Ok tt /\ audit_log W' = audit_log W /\ redis_keys W' = redis_keys W /\
     notified W' = notified W) /\
    (fault E site_redis <> None ->
     (exists w, workflows W !! args0 task = Some w /\ SqlWorkflow.syntax_type w = 1) ->
     r <> Ok tt /\ redis_keys W' = redis_keys W /\ notified W' = notified W) /\
    (fault E site_notify <> None ->
     is_notified (notify_phase_control W) = true ->
     r <> Ok tt)).
Proof.
  unfold execute_callback. cbv zeta.
  run.
  all: try use_promote.
  all: leaf.
Qed.

(** C8, as the code has it: past the guard only the matching of the
    environment (lines 107-126) is best-effort.  A failure of the link query,
    of the last save, of the audit lookup or write, of the cache (for a DDL
    workflow) or of the notifier (when notification is enabled) makes the
    call raise, and the steps after it do not run.  With collaborators that
    answer and a classifiable outcome, the call completes whatever the links
    are, the audit entry is written and the notifier called: with no link
    for the target, the AttributeError of line 108 is caught and logged, and
    with a next slot whose instance is set but whose database is null, the
    TypeError of [len] is caught and logged; in both cases the workflow
    keeps its target. *)
Theorem execute_callback_isolation E task W :
  let r := fst (execute_callback E task W) in
  let W' := snd (execute_callback E task W) in
  (fault E site_relation_query <> None \/ fault E site_final_save <> None \/
   audits W !! args0 task = None \/ fault E site_add_log <> None ->
   r <> Ok tt /\ audit_log W' = audit_log W /\ redis_keys W' = redis_keys W /\
   notified W' = notified W) /\
  (fault E site_redis <> None ->
   (exists w, workflows W !! args0 task = Some w /\ SqlWorkflow.syntax_type w = 1) ->
   r <> Ok tt /\ redis_keys W' = redis_keys W /\ notified W' = notified W) /\
  (fault E site_notify <> None ->
   is_notified (notify_phase_control W) = true ->
   r <> Ok tt) /\
  (forall w,
     (forall s, fault E s = None) ->
     workflows W !! args0 task = Some w ->
     SqlWorkflow.id w = args0 task ->
     SqlWorkflow.status w = "workflow_executing" ->
     classifies task W ->
     is_Some (contents W !! args0 task) ->
     is_Some (audits W !! args0 task) ->
     r = Ok tt /\
     (exists entry, audit_log W' = (audit_log W ++ [entry])%list) /\
     (is_notified (notify_phase_control W) = true ->
      exists w', notified W' = (notified W ++ [w'])%list) /\
     (List.find (relation_matches w) (relations W) = None ->
      error_log W' =
        (error_log W ++ [Logged (AttributeError "NoneType" "dev_instance")])%list /\
      SqlWorkflow.instance <$> workflows W' !! args0 task = Some (SqlWorkflow.instance w) /\
      SqlWorkflow.db_name <$> workflows W' !! args0 task = Some (SqlWorkflow.db_name w)) /\
     (forall link e e' i,
        List.find (relation_matches w) (relations W) = Some link ->
        spec_resolve w link = Some e ->
        following e = Some e' ->
        slot link e' = (Some i, None) ->
        error_log W' =
          (error_log W ++ [Logged (TypeError "object of type 'NoneType' has no len()")])%list /\
        SqlWorkflow.instance <$> workflows W' !! args0 task = Some (SqlWorkflow.instance w) /\
        SqlWorkflow.db_name <$> workflows W' !! args0 task = Some (SqlWorkflow.db_name w))).
Proof.
  cbv zeta.
  destruct (execute_callback_propagates E task W) as (H1 & H2 & H3).
  split; [exact H1 | split; [exact H2 | split; [exact H3 |]]].
  intros w Hcalm Hw Hid Hst Hcls [c Hc] [a Ha].
  destruct (classifies_classify task W c Hcls) as (st & er & Hcl).
  destruct (promote (SqlWorkflow.set_status st
                       (SqlWorkflow.set_finish_time (Some (stopped task)) w))
                    (List.find (relation_matches w) (relations W)))
    as [[[[curr_env next_env] workflow'] prompt] caught] eqn:Hp.
  assert (Hpast : forall s, s <> site_json -> s <> site_content_save ->
                            s <> site_workflow_save -> fault E s = None)
    by (intros s _ _ _; apply Hcalm).
  destruct (execute_callback_completes E task W w c st er a
              curr_env next_env workflow' prompt caught Hw Hid Hst Hc Hcl Ha Hpast Hp)
    as (Hok & Hrow & _ & _ & Haudit & _ & Hsent & Hlogged).
  unfold primary_fault in Hlogged. rewrite !Hcalm, app_nil_r in Hlogged.
  split; [exact Hok | split; [eauto | split; [| split]]].
  - intros Hon. rewrite Hon in Hsent. eauto.
  - intros Hfind. rewrite Hfind, promote_missing_link in Hp.
    injection Hp as <- <- <- <- <-.
    rewrite Hlogged, Hrow. repeat split.
  - intros link e e' i Hfind Hres Hfol Hslot.
    rewrite Hfind in Hp.
    rewrite (promote_unset_database
               (SqlWorkflow.set_status st
                  (SqlWorkflow.set_finish_time (Some (stopped task)) w))
               link e e' i Hres Hfol Hslot) in Hp.
    injection Hp as <- <- <- <- <-.
    rewrite Hlogged, Hrow. repeat split.
Qed.

Lemma execute_callback_isolation_witness :
  let task := Sample.task true Sample.clean_result in
  let W := Sample.unlinked "Add index" "workflow_executing" None in
  fst (execute_callback Sample.calm task W) = Ok tt.
Proof.
  refine (proj1 (proj2 (proj2 (proj2
            (execute_callback_isolation Sample.calm
               (Sample.task true Sample.clean_result)
               (Sample.unlinked "Add index" "workflow_executing" None))))
            (Sample.wf "Add index" "workflow_executing") _ _ _ _ _ _ _)).
  - reflexivity.
  - reflexivity.
  - reflexivity.
  - reflexivity.
  - exists (Build_ReviewSet "alter table t add index i(a)" false false []). reflexivity.
  - eexists. reflexivity.
  - exists 7. reflexivity.
Defined.

(** C8 as stated fails: when the audit write raises, the call raises, the
    cache of the DDL workflow is not cleared and nobody is notified although
    notification is enabled; a notifier that raises makes the call raise as well. *)
Lemma audit_failure_aborts_reconciliation :
  let task := Sample.task true Sample.clean_result in
  let W := Sample.world "Add index" "workflow_executing" None in
  (let E := Sample.failing (fun s => match s with site_add_log => true | _ => false end) in
   let R := execute_callback E task W in
   fst R = Raise (Failure "gone away") /\
   SqlWorkflow.syntax_type (Sample.wf "Add index" "workflow_executing") = 1 /\
   redis_keys (snd R) = redis_keys W /\
   PyStr.contains "insRes" "arch:insRes:1" = true /\
   is_notified (notify_phase_control W) = true /\
   notified (snd R) = []) /\
  (let E := Sample.failing (fun s => match s with site_notify => true | _ => false end) in
   fst (execute_callback E task W) = Raise (Failure "gone away")).
Proof. vm_compute. repeat split. Qed.

(** A link whose sit instance is set and whose sit database is null: the
    workflow runs on the dev slot, [len] of line 110 raises TypeError, the
    handler of line 126 logs it, and the call completes with the workflow on
    its target, finished, under its name, the audit entry written. *)
Lemma unset_next_database_is_logged :
  let task := Sample.task true Sample.clean_result in
  let W :=
    {| workflows := {[ 42 := Sample.wf "Add index" "workflow_executing" ]};
       contents := {[ 42 := SqlWorkflowContent.Build "alter table t add index i(a)" NoResult ]};
       relations := [DBEnvRelation.Build (Some 1) (Some "D1") (Some 2) None None None None None];
       audits := {[ 42 := 7 ]};
       audit_log := [];
       redis_keys := [];
       notified := [];
       engine_calls := [];
       error_log := [];
       notify_phase_control := None |} in
  let R := execute_callback Sample.calm task W in
  fst R = Ok tt /\
  error_log (snd R) = [Logged (TypeError "object of type 'NoneType' has no len()")] /\
  workflows (snd R) !! 42 =
    Some (SqlWorkflow.set_finish_time (Some 1700000000)
            (Sample.wf "Add index" "workflow_finish")) /\
  length (audit_log (snd R)) = 1%nat.
Proof. vm_compute. repeat split. Qed.

(** ** Reconciliation: the notification switch *)

Lemma app_one_neq {A} (l : list A) x : l <> (l ++ [x])%list.
Proof.
  intros H. apply (f_equal length) in H. rewrite length_app in H. cbn in H. lia.
Qed.

(** The notifier is the last step: a call that returns has entered it once
    if notification is enabled and not at all otherwise, and no call enters
    it more than once or while notification is disabled. *)
Lemma execute_callback_notifies E task W :
  runs (execute_callback E task) W (fun r W' =>
    (r = Ok tt ->
     if is_notified (notify_phase_control W)
     then exists w', notified W' = (notified W ++ [w'])%list
     else notified W' = notified W) /\
    (notified W' = notified W \/
     (is_notified (notify_phase_control W) = true /\
      exists w', notified W' = (notified W ++ [w'])%list))).
Proof.
  unfold execute_callback. cbv zeta.
  run.
  all: world_simpl.
  all: split; [intros Hok; try discriminate Hok |].
  all: try match goal with
         | H : is_notified _ = _ |- _ => rewrite H
         end.
  all: eauto.
Qed.

(** C9, as the code has it: at the end of a reconciliation the notifier is
    called, once, exactly when notification is enabled, that is when the
    configuration value is absent, is the empty string, or lists "Execute"
    among its comma-separated phases; in no reconciliation is it called
    while notification is disabled. *)
Theorem notify_iff_enabled E task W :
  let W' := snd (execute_callback E task W) in
  (is_notified (notify_phase_control W) = true <->
   notification_enabled (notify_phase_control W)) /\
  (fst (execute_callback E task W) = Ok tt ->
   ((exists w', notified W' = (notified W ++ [w'])%list) <->
    notification_enabled (notify_phase_control W)) /\
   (~ notification_enabled (notify_phase_control W) -> notified W' = notified W)) /\
  (notified W' = notified W \/
   (notification_enabled (notify_phase_control W) /\
    exists w', notified W' = (notified W ++ [w'])%list)).
Proof.
  cbv zeta. destruct (execute_callback_notifies E task W) as [Hend Hany].
  pose proof (is_notified_spec (notify_phase_control W)) as Hon.
  fold (notification_enabled (notify_phase_control W)) in Hon.
  split; [exact Hon | split].
  - intros Hok. specialize (Hend Hok).
    destruct (is_notified (notify_phase_control W)) eqn:Hn.
    + split; [tauto |]. intros Hclosed. exfalso. apply Hclosed, Hon. reflexivity.
    + split; [| intros _; exact Hend]. split.
      * intros [w' Hw']. rewrite Hend in Hw'. now apply app_one_neq in Hw'.
      * intros Hopen. apply Hon in Hopen. discriminate Hopen.
  - destruct Hany as [Hsame | [Hn Hsent]]; [left; exact Hsame | right].
    split; [apply Hon, Hn | exact Hsent].
Qed.

Lemma notify_iff_enabled_witness :
  let task := Sample.task true Sample.clean_result in
  let W := Sample.world "Add index" "workflow_executing" (Some "Apply,Execute") in
  exists w', notified (snd (execute_callback Sample.calm task W)) = (notified W ++ [w'])%list.
Proof.
  refine (proj2 (proj1 (proj1 (proj2 (notify_iff_enabled Sample.calm
            (Sample.task true Sample.clean_result)
            (Sample.world "Add index" "workflow_executing" (Some "Apply,Execute")))) _)) _).
  - reflexivity.
  - right. right. exists "Apply,Execute". split; [reflexivity |].
    right. left. reflexivity.
Defined.

(** C9 as stated fails: the configuration value exists and is the empty
    string, "Execute" is not among its phases, and the notifier is called. *)
Lemma notify_on_empty_phase_value :
  let task := Sample.task true Sample.clean_result in
  let W := Sample.world "Add index" "workflow_executing" (Some "") in
  let R := execute_callback Sample.calm task W in
  notify_phase_control W = Some "" /\
  ~ spec_phase_enabled "" /\
  fst R = Ok tt /\
  notified W = [] /\
  length (notified (snd R)) = 1%nat /\
  ~ ((exists w', notified (snd R) = (notified W ++ [w'])%list) <->
     (notify_phase_control W = None \/
      exists v, notify_phase_control W = Some v /\ spec_phase_enabled v)).
Proof.
  cbv zeta.
  assert (Hno : ~ spec_phase_enabled "").
  { unfold spec_phase_enabled. cbn. intros [H | []]. discriminate H. }
  split; [reflexivity | split; [exact Hno |]].
  split; [vm_compute; reflexivity |].
  split; [reflexivity |].
  split; [vm_compute; reflexivity |].
  intros [Hto _].
  destruct Hto as [H | (v & Hv & Hen)].
  - eexists. vm_compute. reflexivity.
  - discriminate H.
  - cbn in Hv. injection Hv as <-. exact (Hno Hen).
Qed.

(** * Further properties *)

(** ** Dispatch *)

Lemma execute_missing E workflow_id user W :
  workflows W !! workflow_id = None ->
  execute E workflow_id user W = (Raise (DoesNotExist "SqlWorkflow"), W).
Proof. intros H. unfold execute, bind, get_workflow. now rewrite H. Qed.

Lemma execute_frame E workflow_id user W :
  runs (execute E workflow_id user) W (fun _ W' =>
    contents W' = contents W /\ relations W' = relations W /\ audits W' = audits W /\
    redis_keys W' = redis_keys W /\ notified W' = notified W /\
    error_log W' = error_log W /\ notify_phase_control W' = notify_phase_control W /\
    forall j, j <> workflow_id -> workflows W' !! j = workflows W !! j).
Proof.
  unfold execute. run.
  all: world_simpl; repeat split; try reflexivity.
  all: intros j Hj; now rewrite lookup_alter_ne.
Qed.

Lemma execute_after_status_write E workflow_id user W w :
  workflows W !! workflow_id = Some w ->
  dispatchable (SqlWorkflow.status w) ->
  fault E site_status_save = None ->
  runs (execute E workflow_id user) W (fun r W' =>
    workflows W' !! workflow_id = Some (SqlWorkflow.set_status "workflow_executing" w) /\
    (audits W !! workflow_id = None \/ fault E site_add_log <> None ->
     (forall v, r <> Ok v) /\ engine_calls W' = engine_calls W /\
     audit_log W' = audit_log W)).
Proof.
  intros Hw Hst Hsave. apply dispatchable_mem in Hst.
  unfold execute. run_step. run_step; [| congruence].
  injection Hw as ->. rewrite Hst. cbn [negb].
  run.
  all: world_simpl; try congruence.
  all: rewrite lookup_alter_eq, Heqo; cbn.
  all: split; [reflexivity |].
  all: intros [? | ?]; try congruence.
  all: repeat split; try reflexivity; intros; discriminate.
Qed.

(** The audit entry of a dispatch, as lines 37-44 build it. *)
Lemma execute_audit_entry E workflow_id user W :
  runs (execute E workflow_id user) W (fun r W' =>
    forall v, r = Ok v ->
    exists a, audits W !! workflow_id = Some a /\
      audit_log W' =
        (audit_log W ++
         [{| audit_id := a;
             operation_type := 5;
             operation_type_desc := "执行工单";
             operation_info :=
               match user with Some _ => "工单开始执行" | None => "系统定时执行工单" end;
             operator := match user with Some u => username u | None => "" end;
             operator_display := match user with Some u => display u | None => "系统" end |}])%list).
Proof.
  unfold execute. run.
  all: world_simpl; intros v Hv; try discriminate.
  all: eauto.
Qed.

(** X2: a workflow is dispatched at most once: after a dispatch that
    returned, every further dispatch of the same id, by whomever and with
    whatever collaborators, is refused and changes nothing. *)
Theorem execute_at_most_once E workflow_id user W v :
  fst (execute E workflow_id user W) = Ok v ->
  forall E2 user2,
    execute E2 workflow_id user2 (snd (execute E workflow_id user W)) =
      (Raise StatusNotDispatchable, snd (execute E workflow_id user W)).
Proof.
  intros Hok E2 user2.
  destruct (workflows W !! workflow_id) as [w|] eqn:Hw.
  2:{ rewrite (execute_missing _ _ _ _ Hw) in Hok. discriminate Hok. }
  assert (Hst : dispatchable (SqlWorkflow.status w)).
  { rewrite <- dispatchable_mem.
    destruct (PyStr.mem _ _) eqn:Hmem; [reflexivity |]. exfalso.
    rewrite (execute_refused E workflow_id user W w Hw) in Hok; [discriminate |].
    rewrite <- dispatchable_mem. congruence. }
  pose proof (execute_accepted E workflow_id user W w Hw Hst) as Hrun.
  unfold runs in Hrun.
  destruct (execute E workflow_id user W) as [[v'|e] W']; cbn [fst snd] in *; [| discriminate].
  destruct Hrun as (_ & _ & _ & _ & Hrows & _).
  apply (execute_refused E2 workflow_id user2 W'
           (SqlWorkflow.set_status "workflow_executing" w)).
  - rewrite Hrows, lookup_alter_eq, Hw. reflexivity.
  - cbn. intros [H | H]; discriminate H.
Qed.

Lemma execute_at_most_once_witness :
  let W := Sample.world "Add index" "workflow_queuing" None in
  execute Sample.calm 42 None (snd (execute Sample.calm 42 None W)) =
    (Raise StatusNotDispatchable, snd (execute Sample.calm 42 None W)).
Proof.
  refine (execute_at_most_once Sample.calm 42 None
            (Sample.world "Add index" "workflow_queuing" None)
            (engine_result Sample.calm) _ Sample.calm None).
  reflexivity.
Defined.

(** X3: once the status write of line 30 has gone through, the row is
    executing however the call ends; if the audit record is missing or the
    audit write raises, the call raises, no audit entry is written and the
    engine is never called. *)
Theorem execute_failure_after_transition E workflow_id user W w :
  workflows W !! workflow_id = Some w ->
  dispatchable (SqlWorkflow.status w) ->
  fault E site_status_save = None ->
  let r := fst (execute E workflow_id user W) in
  let W' := snd (execute E workflow_id user W) in
  workflows W' !! workflow_id = Some (SqlWorkflow.set_status "workflow_executing" w) /\
  (audits W !! workflow_id = None \/ fault E site_add_log <> None ->
   (forall v, r <> Ok v) /\ engine_calls W' = engine_calls W /\
   audit_log W' = audit_log W).
Proof.
  intros Hw Hst Hsave. exact (execute_after_status_write E workflow_id user W w Hw Hst Hsave).
Qed.

Lemma execute_failure_after_transition_witness :
  let E := Sample.failing (fun s => match s with site_add_log => true | _ => false end) in
  let W := Sample.world "Add index" "workflow_queuing" None in
  SqlWorkflow.status <$> workflows (snd (execute E 42 None W)) !! 42 = Some "workflow_executing" /\
  engine_calls (snd (execute E 42 None W)) = [].
Proof.
  pose proof (execute_failure_after_transition
                (Sample.failing (fun s => match s with site_add_log => true | _ => false end))
                42 None (Sample.world "Add index" "workflow_queuing" None)
                (Sample.wf "Add index" "workflow_queuing")
                eq_refl (or_introl eq_refl) eq_refl) as [Hrow Hrest].
  split.
  - rewrite Hrow. reflexivity.
  - refine (proj1 (proj2 (Hrest _))). right. discriminate.
Defined.

(** X4: the audit entry of a dispatch that returned carries the audit id of
    the workflow, operation type 5 and the description "执行工单"; with a
    user it names the user and says "工单开始执行", without one the operator
    is empty, displayed as "系统", and it says "系统定时执行工单". *)
Theorem execute_audit_entry_by_operator E workflow_id user W v :
  fst (execute E workflow_id user W) = Ok v ->
  exists a, audits W !! workflow_id = Some a /\
    audit_log (snd (execute E workflow_id user W)) =
      (audit_log W ++
       [{| audit_id := a;
           operation_type := 5;
           operation_type_desc := "执行工单";
           operation_info :=
             match user with Some _ => "工单开始执行" | None => "系统定时执行工单" end;
           operator := match user with Some u => username u | None => "" end;
           operator_display := match user with Some u => display u | None => "系统" end |}])%list.
Proof. intros Hok. exact (execute_audit_entry E workflow_id user W v Hok). Qed.

Lemma execute_audit_entry_by_operator_witness :
  let user := {| username := "alice"; display := "Alice" |} in
  let W := Sample.world "Add index" "workflow_queuing" None in
  exists a, audits W !! 42 = Some a /\
    audit_log (snd (execute Sample.calm 42 (Some user) W)) =
      [{| audit_id := a; operation_type := 5; operation_type_desc := "执行工单";
          operation_info := "工单开始执行"; operator := "alice";
          operator_display := "Alice" |}].
Proof.
  refine (execute_audit_entry_by_operator Sample.calm 42
            (Some {| username := "alice"; display := "Alice" |})
            (Sample.world "Add index" "workflow_queuing" None)
            (engine_result Sample.calm) _).
  reflexivity.
Defined.

(** X5: whatever its outcome, a dispatch touches nothing but the status of
    its own row, the audit log and the engine: contents, links, audit
    records, cache keys, notifications, the error log, the configuration and
    every other workflow row are as before. *)
Theorem execute_touches_only_its_row E workflow_id user W :
  let W' := snd (execute E workflow_id user W) in
  contents W' = contents W /\ relations W' = relations W /\ audits W' = audits W /\
  redis_keys W' = redis_keys W /\ notified W' = notified W /\
  error_log W' = error_log W /\ notify_phase_control W' = notify_phase_control W /\
  forall j, j <> workflow_id -> workflows W' !! j = workflows W !! j.
Proof. exact (execute_frame E workflow_id user W). Qed.

(** ** Reconciliation: a call that completes *)

Lemma promote_prompt workflow db_relate curr_env next_env workflow' prompt caught :
  promote workflow db_relate = (curr_env, next_env, workflow', prompt, caught) ->
  curr_env =
    match db_relate with
    | Some r => match spec_resolve workflow r with
                | Some e => label_name e
                | None => ""
                end
    | None => ""
    end /\
  prompt = (if String.eqb next_env "" then "" else "," ++ next_env ++ " 环境待执行").
Proof.
  unfold promote. destruct db_relate as [r|].
  - rewrite locate_resolve.
    destruct (spec_resolve workflow r) as [e|].
    + destruct (following e) as [e'|].
      * unfold advance.
        destruct (fst (slot r e')) as [i|];
          [destruct (snd (slot r e')) as [d|];
           [destruct (0 <? String.length d)%nat |] |].
        all: try (destruct e'); cbn; intros [= <- <- <- <- <-]; split; reflexivity.
      * cbn. intros [= <- <- <- <- <-]. split; reflexivity.
    + cbn. intros [= <- <- <- <- <-]. split; reflexivity.
  - cbn. intros [= <- <- <- <- <-]. split; reflexivity.
Qed.

Lemma promote_outcome workflow db_relate curr_env next_env workflow' prompt caught :
  promote workflow db_relate = (curr_env, next_env, workflow', prompt, caught) ->
  (next_env = "" -> workflow' = workflow) /\
  (next_env <> "" -> SqlWorkflow.status workflow' = "workflow_review_pass").
Proof.
  destruct (promote_cases workflow db_relate)
    as [(e & e' & i & d & _ & _ & ->) | (_ & c & k & ->)]; intros [= <- <- <- <- <-].
  - split; [intros H; now apply label_name_nonempty in H | reflexivity].
  - split; [reflexivity | congruence].
Qed.

(** What a call that returned has done, whatever the collaborators: it
    stored a row with the id, the syntax type and the finish time, appended
    one audit entry of type 6, cleared the cache exactly for a DDL workflow
    and handed the stored row to the notifier if enabled. *)
Lemma execute_callback_returned E task W :
  runs (execute_callback E task) W (fun r W' =>
    r = Ok tt ->
    exists w w',
      workflows W !! args0 task = Some w /\
      workflows W' !! SqlWorkflow.id w = Some w' /\
      SqlWorkflow.id w' = SqlWorkflow.id w /\
      SqlWorkflow.finish_time w' = Some (stopped task) /\
      SqlWorkflow.syntax_type w' = SqlWorkflow.syntax_type w /\
      redis_keys W' =
        (if SqlWorkflow.syntax_type w =? 1
         then filter (fun k => negb (PyStr.contains "insRes" k)) (redis_keys W)
         else redis_keys W) /\
      notified W' =
        (if is_notified (notify_phase_control W)
         then (notified W ++ [w'])%list
         else notified W) /\
      exists entry,
        audit_log W' = (audit_log W ++ [entry])%list /\
        operation_type entry = 6 /\
        audits W !! args0 task = Some (audit_id entry)).
Proof.
  unfold execute_callback. cbv zeta.
  run.
  all: intros Hok; try discriminate Hok.
  all: use_promote; world_simpl.
  all: do 2 eexists; split; [reflexivity |].
  all: repeat match goal with
         | H : is_notified _ = _ |- _ => rewrite H; clear H
         | H : (_ =? _) = _ |- _ => rewrite Hpsy in H; rewrite H; clear H
         end.
  all: rewrite <- Hpid at 1; rewrite lookup_insert_eq.
  all: repeat split; try eassumption; try reflexivity.
  all: eexists; repeat split; eassumption.
Qed.

(** What no call does, whatever its outcome: it never touches the links,
    the audit records, the configuration or the engine, it writes at most
    one audit entry, it adds no cache key and deletes none but instance
    resources, and it leaves every other row alone. *)
Lemma execute_callback_frame E task W :
  runs (execute_callback E task) W (fun r W' =>
    relations W' = relations W /\ audits W' = audits W /\
    notify_phase_control W' = notify_phase_control W /\
    engine_calls W' = engine_calls W /\
    (audit_log W' = audit_log W \/
     exists entry, audit_log W' = (audit_log W ++ [entry])%list) /\
    (redis_keys W' = redis_keys W \/
     redis_keys W' = filter (fun k => negb (PyStr.contains "insRes" k)) (redis_keys W)) /\
    (forall w j, workflows W !! args0 task = Some w ->
                 j <> args0 task -> j <> SqlWorkflow.id w ->
                 workflows W' !! j = workflows W !! j /\
                 contents W' !! j = contents W !! j)).
Proof.
  unfold execute_callback. cbv zeta.
  run.
  all: try use_promote; world_simpl.
  all: repeat split; try reflexivity; eauto.
  all: try (intros; congruence).
  all: intros; simplify_eq; world_simpl.
  all: rewrite ?Hpid.
  all: rewrite ?lookup_insert_ne, ?lookup_alter_ne by congruence.
  all: reflexivity.
Qed.

(** ** Reconciliation: what a call that completes leaves behind *)

Lemma execute_callback_missing E task W :
  workflows W !! args0 task = None ->
  execute_callback E task W = (Raise (DoesNotExist "SqlWorkflow"), W).
Proof. intros H. unfold execute_callback, bind, get_workflow. now rewrite H. Qed.

(** X1: with no row for the id, a dispatch and a reconciliation both raise
    DoesNotExist and leave the world as it was; so does the reconciliation
    of a failed task whose workflow has no content row to read the SQL from,
    which therefore stays executing. *)
Theorem entry_points_on_missing_rows E task user W :
  (workflows W !! args0 task = None ->
   execute E (args0 task) user W = (Raise (DoesNotExist "SqlWorkflow"), W) /\
   execute_callback E task W = (Raise (DoesNotExist "SqlWorkflow"), W)) /\
  (forall w,
     workflows W !! args0 task = Some w ->
     SqlWorkflow.status w = "workflow_executing" ->
     success task = false ->
     contents W !! SqlWorkflow.id w = None ->
     execute_callback E task W = (Raise (DoesNotExist "SqlWorkflowContent"), W)).
Proof.
  split.
  - intros H. split; [now apply execute_missing | now apply execute_callback_missing].
  - intros w Hw Hst Hs Hc.
    unfold execute_callback, bind, get_workflow, outcome, get_content.
    rewrite Hw, Hst, String.eqb_refl, Hs. cbn. unfold bind. cbn. now rewrite Hc.
Qed.

Lemma entry_points_on_missing_rows_witness :
  let W := Sample.world "Add index" "workflow_executing" None in
  execute_callback Sample.calm
    {| args0 := 7; success := true; result := Sample.clean_result; stopped := 0 |} W
  = (Raise (DoesNotExist "SqlWorkflow"), W).
Proof.
  refine (proj2 (proj1 (entry_points_on_missing_rows Sample.calm
            {| args0 := 7; success := true; result := Sample.clean_result; stopped := 0 |}
            None (Sample.world "Add index" "workflow_executing" None)) _)).
  reflexivity.
Defined.

(** X6: a reconciled workflow cannot be dispatched: once a reconciliation
    has left the row settled (finish, exception or review_pass), [execute]
    refuses it, review_pass included, and changes nothing. *)
Theorem settled_workflow_is_not_dispatchable E task W w :
  workflows W !! args0 task = Some w ->
  SqlWorkflow.id w = args0 task ->
  SqlWorkflow.status w = "workflow_executing" ->
  classifies task W ->
  fault E site_forced_update = None ->
  forall E2 user,
    execute E2 (args0 task) user (snd (execute_callback E task W)) =
      (Raise StatusNotDispatchable, snd (execute_callback E task W)).
Proof.
  intros Hw Hid Hst Hcls Hforced E2 user.
  destruct (execute_callback_settles E task W w Hw Hid Hst Hcls Hforced)
    as (w' & Hw' & Hs).
  apply (execute_refused E2 (args0 task) user _ w' Hw').
  intros [H | H]; destruct Hs as [Hs | [Hs | Hs]]; rewrite Hs in H; discriminate H.
Qed.

Lemma settled_workflow_is_not_dispatchable_witness :
  let task := Sample.task true Sample.clean_result in
  let W := Sample.world "Add index" "workflow_executing" None in
  execute Sample.calm 42 None (snd (execute_callback Sample.calm task W)) =
    (Raise StatusNotDispatchable, snd (execute_callback Sample.calm task W)).
Proof.
  refine (settled_workflow_is_not_dispatchable Sample.calm
            (Sample.task true Sample.clean_result)
            (Sample.world "Add index" "workflow_executing" None)
            (Sample.wf "Add index" "workflow_executing") _ _ _ _ _ Sample.calm None).
  - reflexivity.
  - reflexivity.
  - reflexivity.
  - exists (Build_ReviewSet "alter table t add index i(a)" false false []). reflexivity.
  - reflexivity.
Defined.

(** X7: the guard orders dispatch and reconciliation: for a workflow that
    is still queuing or scheduled the hook raises the guard's exception and
    changes nothing, and after a dispatch that returned the hook never
    raises it. *)
Theorem callback_accepted_only_after_dispatch E E2 task user W w :
  workflows W !! args0 task = Some w ->
  dispatchable (SqlWorkflow.status w) ->
  execute_callback E2 task W = (Raise (StatusNotExecuting (SqlWorkflow.id w)), W) /\
  (forall v, fst (execute E (args0 task) user W) = Ok v ->
     forall i, fst (execute_callback E2 task (snd (execute E (args0 task) user W)))
               <> Raise (StatusNotExecuting i)).
Proof.
  intros Hw Hst. split.
  - apply execute_callback_refused; [exact Hw |].
    destruct Hst as [H | H]; rewrite H; discriminate.
  - intros v Hok.
    pose proof (execute_accepted E (args0 task) user W w Hw Hst) as Hrun.
    unfold runs in Hrun.
    destruct (execute E (args0 task) user W) as [[v'|e] W']; cbn [fst snd] in *;
      [| discriminate].
    destruct Hrun as (_ & _ & _ & _ & Hrows & _).
    apply (execute_callback_accepted_exn E2 task W'
             (SqlWorkflow.set_status "workflow_executing" w)).
    + rewrite Hrows, lookup_alter_eq, Hw. reflexivity.
    + reflexivity.
Qed.

Lemma callback_accepted_only_after_dispatch_witness :
  let task := Sample.task true Sample.clean_result in
  let W := Sample.world "Add index" "workflow_queuing" None in
  execute_callback Sample.calm task W = (Raise (StatusNotExecuting 42), W).
Proof.
  refine (proj1 (callback_accepted_only_after_dispatch Sample.calm Sample.calm
                   (Sample.task true Sample.clean_result) None
                   (Sample.world "Add index" "workflow_queuing" None)
                   (Sample.wf "Add index" "workflow_queuing") _ _)).
  - reflexivity.
  - left. reflexivity.
Defined.

(** X8: when every collaborator past the first save answers, the call
    returns and the stored row is the workflow the promotion step produced
    from the classified one: it carries the finish time of the task, it is
    the classified workflow itself when there is no promotion and
    review_pass when there is one, whether or not the first save failed; no
    other row changes. *)
Theorem execute_callback_stores_promoted_row E task W w c st execute_result a
      curr_env next_env workflow' prompt caught :
  workflows W !! args0 task = Some w ->
  SqlWorkflow.id w = args0 task ->
  SqlWorkflow.status w = "workflow_executing" ->
  contents W !! args0 task = Some c ->
  classify (success task) (result task) (SqlWorkflowContent.sql_content c)
    = Ok (st, execute_result) ->
  audits W !! args0 task = Some a ->
  (forall s, s <> site_json -> s <> site_content_save -> s <> site_workflow_save ->
             fault E s = None) ->
  promote (SqlWorkflow.set_status st (SqlWorkflow.set_finish_time (Some (stopped task)) w))
          (List.find (relation_matches w) (relations W))
    = (curr_env, next_env, workflow', prompt, caught) ->
  let W' := snd (execute_callback E task W) in
  fst (execute_callback E task W) = Ok tt /\
  workflows W' !! args0 task = Some workflow' /\
  (forall j, j <> args0 task -> workflows W' !! j = workflows W !! j) /\
  SqlWorkflow.finish_time workflow' = Some (stopped task) /\
  (next_env = "" ->
   workflow' = SqlWorkflow.set_status st
                 (SqlWorkflow.set_finish_time (Some (stopped task)) w)) /\
  (next_env <> "" -> SqlWorkflow.status workflow' = "workflow_review_pass").
Proof.
  intros Hw Hid Hst Hc Hcl Ha Hcalm Hp W'.
  destruct (execute_callback_completes E task W w c st execute_result a
              curr_env next_env workflow' prompt caught Hw Hid Hst Hc Hcl Ha Hcalm Hp)
    as (Hok & Hrow & Hothers & _).
  destruct (promote_keeps _ _ _ _ _ _ _ Hp) as (_ & _ & Hft & _).
  destruct (promote_outcome _ _ _ _ _ _ _ Hp) as (Hsame & Hpass).
  repeat split; assumption.
Qed.

Lemma execute_callback_stores_promoted_row_witness :
  let E := Sample.failing (fun s => match s with site_workflow_save => true | _ => false end) in
  let task := Sample.task true Sample.clean_result in
  let W := Sample.world "[dev]Add index" "workflow_executing" None in
  workflows (snd (execute_callback E task W)) !! 42 =
    Some (SqlWorkflow.Build 42 "workflow_review_pass" 2 "D2" "[sit]Add index" 1
            (Some 1700000000)).
Proof.
  refine (proj1 (proj2 (execute_callback_stores_promoted_row
            (Sample.failing (fun s => match s with site_workflow_save => true | _ => false end))
            (Sample.task true Sample.clean_result)
            (Sample.world "[dev]Add index" "workflow_executing" None)
            (Sample.wf "[dev]Add index" "workflow_executing")
            (SqlWorkflowContent.Build "alter table t add index i(a)" NoResult)
            "workflow_finish" (Build_ReviewSet "alter table t add index i(a)" false false [])
            7 "dev" "sit" _ ",sit 环境待执行" None _ _ _ _ _ _ _ _))).
  - reflexivity.
  - reflexivity.
  - reflexivity.
  - reflexivity.
  - reflexivity.
  - reflexivity.
  - intros s H1 H2 H3. destruct s; try reflexivity; congruence.
  - reflexivity.
Defined.

(** X9: under the same conditions the content row holds the JSON of the
    classified result when lines 87-89 went through, and the text of the
    exception when one of them raised; in the latter case the exception
    status forced by line 92 does not survive the last save: a clean run
    is stored as finish or review_pass. *)
Theorem execute_callback_result_payload E task W w c st execute_result a
      curr_env next_env workflow' prompt caught :
  workflows W !! args0 task = Some w ->
  SqlWorkflow.id w = args0 task ->
  SqlWorkflow.status w = "workflow_executing" ->
  contents W !! args0 task = Some c ->
  classify (success task) (result task) (SqlWorkflowContent.sql_content c)
    = Ok (st, execute_result) ->
  audits W !! args0 task = Some a ->
  (forall s, s <> site_json -> s <> site_content_save -> s <> site_workflow_save ->
             fault E s = None) ->
  promote (SqlWorkflow.set_status st (SqlWorkflow.set_finish_time (Some (stopped task)) w))
          (List.find (relation_matches w) (relations W))
    = (curr_env, next_env, workflow', prompt, caught) ->
  let W' := snd (execute_callback E task W) in
  (primary_fault E = None ->
   contents W' !! args0 task =
     Some (SqlWorkflowContent.set_execute_result (Json execute_result) c)) /\
  (forall msg, primary_fault E = Some msg ->
     contents W' !! args0 task =
       Some (SqlWorkflowContent.set_execute_result (TextSet msg) c) /\
     (st = "workflow_finish" ->
      SqlWorkflow.status <$> workflows W' !! args0 task = Some "workflow_finish" \/
      SqlWorkflow.status <$> workflows W' !! args0 task = Some "workflow_review_pass")).
Proof.
  intros Hw Hid Hst Hc Hcl Ha Hcalm Hp W'.
  destruct (execute_callback_completes E task W w c st execute_result a
              curr_env next_env workflow' prompt caught Hw Hid Hst Hc Hcl Ha Hcalm Hp)
    as (_ & Hrow & _ & Hcontent & _).
  fold W' in Hrow, Hcontent.
  split.
  - intros Hnone. now rewrite Hnone in Hcontent.
  - intros msg Hsome. rewrite Hsome in Hcontent. split; [exact Hcontent |].
    intros ->. rewrite Hrow. cbn.
    destruct (promote_keeps _ _ _ _ _ _ _ Hp) as (_ & _ & _ & [H | H]);
      rewrite H; cbn; auto.
Qed.

Lemma execute_callback_result_payload_witness :
  let E := Sample.failing (fun s => match s with site_content_save => true | _ => false end) in
  let task := Sample.task true Sample.clean_result in
  let W := Sample.unlinked "Add index" "workflow_executing" None in
  contents (snd (execute_callback E task W)) !! 42 =
    Some (SqlWorkflowContent.Build "alter table t add index i(a)" (TextSet "gone away")).
Proof.
  refine (proj1 (proj2 (execute_callback_result_payload
            (Sample.failing (fun s => match s with site_content_save => true | _ => false end))
            (Sample.task true Sample.clean_result)
            (Sample.unlinked "Add index" "workflow_executing" None)
            (Sample.wf "Add index" "workflow_executing")
            (SqlWorkflowContent.Build "alter table t add index i(a)" NoResult)
            "workflow_finish" (Build_ReviewSet "alter table t add index i(a)" false false [])
            7 "" "" _ "" (Some (AttributeError "NoneType" "dev_instance")) _ _ _ _ _ _ _ _)
            "gone away" _)).
  - reflexivity.
  - reflexivity.
  - reflexivity.
  - reflexivity.
  - reflexivity.
  - reflexivity.
  - intros s H1 H2 H3. destruct s; try reflexivity; congruence.
  - reflexivity.
  - reflexivity.
Defined.

(** X10: the audit entry of such a call is the only one appended; it names
    the environment the workflow occupied (empty when no link matched),
    reports the display of the classified status, not review_pass, and ends
    with ",<next> 环境待执行" exactly when the workflow was promoted. *)
Theorem execute_callback_audit_entry E task W w c st execute_result a
      curr_env next_env workflow' prompt caught :
  workflows W !! args0 task = Some w ->
  SqlWorkflow.id w = args0 task ->
  SqlWorkflow.status w = "workflow_executing" ->
  contents W !! args0 task = Some c ->
  classify (success task) (result task) (SqlWorkflowContent.sql_content c)
    = Ok (st, execute_result) ->
  audits W !! args0 task = Some a ->
  (forall s, s <> site_json -> s <> site_content_save -> s <> site_workflow_save ->
             fault E s = None) ->
  promote (SqlWorkflow.set_status st (SqlWorkflow.set_finish_time (Some (stopped task)) w))
          (List.find (relation_matches w) (relations W))
    = (curr_env, next_env, workflow', prompt, caught) ->
  audit_log (snd (execute_callback E task W)) =
    (audit_log W ++
     [{| audit_id := a;
         operation_type := 6;
         operation_type_desc := curr_env ++ " 执行结束";
         operation_info :=
           curr_env ++ " 环境执行结果：" ++ get_status_display E st ++
           (if String.eqb next_env "" then "" else "," ++ next_env ++ " 环境待执行");
         operator := "";
         operator_display := "系统" |}])%list /\
  curr_env =
    match List.find (relation_matches w) (relations W) with
    | Some r =>
        match spec_resolve w r with
        | Some e => label_name e
        | None => ""
        end
    | None => ""
    end.
Proof.
  intros Hw Hid Hst Hc Hcl Ha Hcalm Hp.
  destruct (execute_callback_completes E task W w c st execute_result a
              curr_env next_env workflow' prompt caught Hw Hid Hst Hc Hcl Ha Hcalm Hp)
    as (_ & _ & _ & _ & Hlog & _).
  destruct (promote_prompt _ _ _ _ _ _ _ Hp) as (Hcurr & Hprompt).
  split.
  - rewrite Hlog, Hprompt. reflexivity.
  - exact Hcurr.
Qed.

Lemma execute_callback_audit_entry_witness :
  let task := Sample.task true Sample.clean_result in
  let W := Sample.world "[dev]Add index" "workflow_executing" None in
  audit_log (snd (execute_callback Sample.calm task W)) =
    [{| audit_id := 7; operation_type := 6; operation_type_desc := "dev 执行结束";
        operation_info := "dev 环境执行结果：workflow_finish,sit 环境待执行";
        operator := ""; operator_display := "系统" |}].
Proof.
  refine (proj1 (execute_callback_audit_entry Sample.calm
            (Sample.task true Sample.clean_result)
            (Sample.world "[dev]Add index" "workflow_executing" None)
            (Sample.wf "[dev]Add index" "workflow_executing")
            (SqlWorkflowContent.Build "alter table t add index i(a)" NoResult)
            "workflow_finish" (Build_ReviewSet "alter table t add index i(a)" false false [])
            7 "dev" "sit" _ ",sit 环境待执行" None _ _ _ _ _ _ _ _)).
  - reflexivity.
  - reflexivity.
  - reflexivity.
  - reflexivity.
  - reflexivity.
  - reflexivity.
  - intros s H1 H2 H3. reflexivity.
  - reflexivity.
Defined.

(** ** Reconciliation: cache, notifier and frame *)

(** X11: a reconciliation that returns has cleared the cache exactly for a
    DDL workflow (syntax type 1): afterwards the keys are those that do not
    contain "insRes", in their order; for any other workflow the keys are
    untouched. *)
Theorem execute_callback_clears_instance_cache E task W w :
  workflows W !! args0 task = Some w ->
  fst (execute_callback E task W) = Ok tt ->
  let W' := snd (execute_callback E task W) in
  (SqlWorkflow.syntax_type w = 1 ->
   redis_keys W' = filter (fun k => negb (PyStr.contains "insRes" k)) (redis_keys W) /\
   forall k, k ∈ redis_keys W' <-> k ∈ redis_keys W /\ PyStr.contains "insRes" k = false) /\
  (SqlWorkflow.syntax_type w <> 1 -> redis_keys W' = redis_keys W).
Proof.
  intros Hw Hok W'.
  destruct (execute_callback_returned E task W Hok)
    as (w0 & w' & Hw0 & _ & _ & _ & _ & Hkeys & _).
  fold W' in Hkeys. rewrite Hw in Hw0. injection Hw0 as <-.
  split.
  - intros Hddl. rewrite Hddl in Hkeys. cbn in Hkeys. split; [exact Hkeys |].
    intros k. rewrite Hkeys, list_elem_of_filter.
    rewrite negb_True, Is_true_false. tauto.
  - intros Hother. apply Z.eqb_neq in Hother. now rewrite Hother in Hkeys.
Qed.

Lemma execute_callback_clears_instance_cache_witness :
  let task := Sample.task true Sample.clean_result in
  let W := Sample.world "Add index" "workflow_executing" None in
  redis_keys (snd (execute_callback Sample.calm task W)) = ["session"].
Proof.
  refine (proj1 (proj1 (execute_callback_clears_instance_cache Sample.calm
            (Sample.task true Sample.clean_result)
            (Sample.world "Add index" "workflow_executing" None)
            (Sample.wf "Add index" "workflow_executing") _ _) _)).
  - reflexivity.
  - reflexivity.
  - reflexivity.
Defined.

(** X12: when notification is enabled, the workflow a returning
    reconciliation hands to the notifier is the row it has just stored,
    with the finish time of the task. *)
Theorem execute_callback_notifies_stored_row E task W w :
  workflows W !! args0 task = Some w ->
  SqlWorkflow.id w = args0 task ->
  fst (execute_callback E task W) = Ok tt ->
  is_notified (notify_phase_control W) = true ->
  let W' := snd (execute_callback E task W) in
  exists w',
    notified W' = (notified W ++ [w'])%list /\
    workflows W' !! args0 task = Some w' /\
    SqlWorkflow.finish_time w' = Some (stopped task).
Proof.
  intros Hw Hid Hok Hon W'.
  destruct (execute_callback_returned E task W Hok)
    as (w0 & w' & Hw0 & Hrow & _ & Hft & _ & _ & Hsent & _).
  fold W' in Hrow, Hsent. rewrite Hw in Hw0. injection Hw0 as <-.
  rewrite Hon in Hsent. rewrite Hid in Hrow. eauto.
Qed.

Lemma execute_callback_notifies_stored_row_witness :
  let task := Sample.task true Sample.clean_result in
  let W := Sample.world "Add index" "workflow_executing" (Some "Execute") in
  exists w',
    notified (snd (execute_callback Sample.calm task W)) = (notified W ++ [w'])%list /\
    workflows (snd (execute_callback Sample.calm task W)) !! 42 = Some w' /\
    SqlWorkflow.finish_time w' = Some 1700000000.
Proof.
  refine (execute_callback_notifies_stored_row Sample.calm
            (Sample.task true Sample.clean_result)
            (Sample.world "Add index" "workflow_executing" (Some "Execute"))
            (Sample.wf "Add index" "workflow_executing") _ _ _ _).
  - reflexivity.
  - reflexivity.
  - reflexivity.
  - reflexivity.
Defined.

(** X13: whatever its outcome, a reconciliation never calls the engine and
    never touches the links, the audit records or the configuration; it
    appends at most one audit entry, adds no cache key, and leaves the rows
    and contents of all other workflows as they were. *)
Theorem execute_callback_never_touches E task W :
  let W' := snd (execute_callback E task W) in
  relations W' = relations W /\ audits W' = audits W /\
  notify_phase_control W' = notify_phase_control W /\
  engine_calls W' = engine_calls W /\
  (audit_log W' = audit_log W \/
   exists entry, audit_log W' = (audit_log W ++ [entry])%list) /\
  (forall k, k ∈ redis_keys W' -> k ∈ redis_keys W) /\
  (forall w j, workflows W !! args0 task = Some w ->
               j <> args0 task -> j <> SqlWorkflow.id w ->
               workflows W' !! j = workflows W !! j /\
               contents W' !! j = contents W !! j).
Proof.
  intros W'.
  destruct (execute_callback_frame E task W) as (H1 & H2 & H3 & H4 & H5 & H6 & H7).
  fold W' in H1, H2, H3, H4, H5, H6, H7.
  repeat (split; [assumption |]). split; [| exact H7].
  intros k Hk. destruct H6 as [H6 | H6]; rewrite H6 in Hk; [exact Hk |].
  apply list_elem_of_filter in Hk. tauto.
Qed.

(** ** The name tag: further properties *)

Lemma replace_absent old new (s : string) :
  PyStr.contains old s = false -> PyStr.replace s old new = s.
Proof.
  unfold PyStr.replace. induction s as [|c s IH]; [reflexivity |].
  cbn [PyStr.contains PyStr.replace_from]. intros H.
  apply orb_false_iff in H as [Hp Hc]. rewrite Hp. f_equal. exact (IH Hc).
Qed.

Lemma prefix_app (p rest : string) : String.prefix p (p ++ rest) = true.
Proof.
  induction p as [|c p IH].
  - destruct rest; reflexivity.
  - change (String c p ++ rest) with (String c (p ++ rest)).
    cbn [String.prefix]. destruct (ascii_dec c c); [exact IH | contradiction].
Qed.

Lemma replace_from_skip old new (s rest : string) :
  PyStr.replace_from old new (String.length s) (s ++ rest) =
  PyStr.replace_from old new 0 rest.
Proof.
  induction s as [|c s IH].
  - reflexivity.
  - change (String c s ++ rest) with (String c (s ++ rest)).
    cbn [String.length PyStr.replace_from]. exact IH.
Qed.

Lemma replace_leading c (old' new rest : string) :
  PyStr.replace (String c old' ++ rest) (String c old') new =
  new ++ PyStr.replace rest (String c old') new.
Proof.
  unfold PyStr.replace.
  change (String c old' ++ rest) with (String c (old' ++ rest)).
  cbn [PyStr.replace_from].
  change (String c (old' ++ rest)) with (String c old' ++ rest).
  rewrite prefix_app. cbn [String.length Nat.pred].
  now rewrite replace_from_skip.
Qed.

Lemma replace_leading_mark (e : EnvLabel) (new rest : string) :
  PyStr.replace (PyStr.mark (label_name e) ++ rest) (PyStr.mark (label_name e)) new =
  new ++ PyStr.replace rest (PyStr.mark (label_name e)) new.
Proof. apply (replace_leading "["). Qed.

Lemma match_env_tag_mark (e : EnvLabel) (rest : string) :
  match_env_tag (PyStr.mark (label_name e) ++ rest) = true.
Proof.
  unfold match_env_tag. apply existsb_exists. exists (label_name e). split.
  - destruct e; cbn; auto.
  - apply prefix_app.
Qed.

(** X14: a name that starts with the tag of the current environment and
    does not contain that tag again has exactly the leading tag replaced by
    the tag of the next environment; the rest of the name is kept. *)
Theorem rewrite_name_replaces_current_tag (e e' : EnvLabel) (rest : string) :
  PyStr.contains (PyStr.mark (label_name e)) rest = false ->
  rewrite_name (label_name e) (label_name e') (PyStr.mark (label_name e) ++ rest) =
    PyStr.mark (label_name e') ++ rest.
Proof.
  intros Habs. unfold rewrite_name.
  rewrite match_env_tag_mark. cbn [negb].
  rewrite replace_leading_mark. f_equal. now apply replace_absent.
Qed.

Lemma rewrite_name_replaces_current_tag_witness :
  rewrite_name "sit" "uat" "[sit]Add index" = "[uat]Add index".
Proof.
  refine (rewrite_name_replaces_current_tag sit uat "Add index" _).
  reflexivity.
Defined.

(** X15: along the chain dev, sit, uat, pro the tag follows the workflow:
    a name without a leading tag that contains neither "[sit]" nor "[uat]"
    is "[pro]" followed by the name after the three promotions. *)
Theorem rewrite_name_along_chain (name : string) :
  match_env_tag name = false ->
  PyStr.contains "[sit]" name = false ->
  PyStr.contains "[uat]" name = false ->
  rewrite_name "uat" "pro" (rewrite_name "sit" "uat" (rewrite_name "dev" "sit" name)) =
    "[pro]" ++ name.
Proof.
  intros Htag Hsit Huat.
  rewrite (rewrite_name_untagged "dev" "sit" name Htag).
  change (PyStr.mark "sit" ++ name) with (PyStr.mark (label_name sit) ++ name).
  change "sit" with (label_name sit) at 1. change "uat" with (label_name uat) at 2.
  unfold rewrite_name at 2. rewrite match_env_tag_mark. cbn [negb].
  rewrite replace_leading_mark, (replace_absent _ _ _ Hsit).
  unfold rewrite_name. rewrite (match_env_tag_mark uat name). cbn [negb].
  rewrite (replace_leading_mark uat), (replace_absent _ _ _ Huat). reflexivity.
Qed.

Lemma rewrite_name_along_chain_witness :
  rewrite_name "uat" "pro" (rewrite_name "sit" "uat" (rewrite_name "dev" "sit" "Add index")) =
    "[pro]Add index".
Proof.
  refine (rewrite_name_along_chain "Add index" _ _ _); reflexivity.
Defined.

(** ** The promotion step: further properties *)

(** X16: a promoted workflow is not orphaned: its new target is a slot of
    the link that promoted it, so that link still matches it and the lookup
    of the next reconciliation finds a link in any table that holds it. *)
Theorem promoted_workflow_keeps_its_link workflow r curr_env next_env workflow' prompt caught
    (table : list DBEnvRelation.t) :
  promote workflow (Some r) = (curr_env, next_env, workflow', prompt, caught) ->
  next_env <> "" ->
  relation_matches workflow' r = true /\
  (In r table -> List.find (relation_matches workflow') table <> None).
Proof.
  intros Hp Hnext.
  assert (Hm : relation_matches workflow' r = true).
  { destruct (promote_cases workflow (Some r))
      as [(e & e' & i & d & Hslot & _ & Heq) | (_ & c & k & Heq)];
      rewrite Heq in Hp; injection Hp as <- <- <- <- <-; [| congruence].
    destruct Hslot as (r' & e0 & [= <-] & _ & _ & Hcfg & _).
    unfold relation_matches. rewrite !at_slot_decide. cbn.
    destruct e'; cbn in Hcfg; rewrite Hcfg;
      rewrite (bool_decide_eq_true_2 _ eq_refl); rewrite ?orb_true_r; reflexivity. }
  split; [exact Hm |].
  intros Hin Hnone. apply (find_none _ _ Hnone) in Hin. congruence.
Qed.

Lemma promoted_workflow_keeps_its_link_witness :
  let workflow' := SqlWorkflow.Build 42 "workflow_review_pass" 2 "D2" "[sit]Add index" 1 None in
  relation_matches workflow' Sample.link = true.
Proof.
  refine (proj1 (promoted_workflow_keeps_its_link
                   (Sample.wf "Add index" "workflow_finish") Sample.link
                   "dev" "sit" _ ",sit 环境待执行" None [] _ _)).
  - reflexivity.
  - discriminate.
Defined.

(** X17: when the dev and the sit slot of a link hold the same target, the
    tests of lines 108-123 take dev: a workflow on that target is promoted
    from dev to sit without moving, and promoting it again gives dev to sit
    again, so it never reaches uat. *)
Theorem promotion_into_same_target workflow r i d
    curr_env next_env workflow' prompt caught :
  DBEnvRelation.dev_instance r = Some i -> DBEnvRelation.dev_database r = Some d ->
  DBEnvRelation.sit_instance r = Some i -> DBEnvRelation.sit_database r = Some d ->
  d <> "" ->
  SqlWorkflow.instance workflow = i -> SqlWorkflow.db_name workflow = d ->
  promote workflow (Some r) = (curr_env, next_env, workflow', prompt, caught) ->
  curr_env = "dev" /\ next_env = "sit" /\
  SqlWorkflow.instance workflow' = i /\ SqlWorkflow.db_name workflow' = d /\
  SqlWorkflow.status workflow' = "workflow_review_pass" /\
  fst (fst (fst (promote workflow' (Some r)))) = ("dev", "sit").
Proof.
  intros Hdi Hdd Hsi Hsd Hd Hi Hn.
  assert (Hstep : forall w, SqlWorkflow.instance w = i -> SqlWorkflow.db_name w = d ->
            promote w (Some r) =
              ("dev", "sit",
               SqlWorkflow.set_workflow_name
                 (rewrite_name "dev" "sit" (SqlWorkflow.workflow_name w))
                 (SqlWorkflow.set_status "workflow_review_pass"
                    (SqlWorkflow.set_target i d w)),
               ",sit 环境待执行", None)).
  { intros w Hwi Hwd. unfold promote, locate, at_slot.
    rewrite Hdi, Hdd, Hwi, Hwd, Z.eqb_refl, String.eqb_refl. cbn [andb].
    unfold advance. rewrite Hsi, Hsd.
    destruct d as [|c d']; [congruence |]. reflexivity. }
  rewrite (Hstep workflow Hi Hn). intros [= <- <- <- <- <-].
  repeat split.
  rewrite Hstep by reflexivity. reflexivity.
Qed.

Lemma promotion_into_same_target_witness :
  let r := DBEnvRelation.Build (Some 1) (Some "D1") (Some 1) (Some "D1")
             (Some 3) (Some "D3") None None in
  fst (fst (fst (promote (SqlWorkflow.Build 42 "workflow_review_pass" 1 "D1" "[sit]Add index" 1 None)
                   (Some r)))) = ("dev", "sit").
Proof.
  refine (proj2 (proj2 (proj2 (proj2 (proj2
            (promotion_into_same_target (Sample.wf "Add index" "workflow_finish")
               (DBEnvRelation.Build (Some 1) (Some "D1") (Some 1) (Some "D1")
                  (Some 3) (Some "D3") None None)
               1 "D1" "dev" "sit" _ ",sit 环境待执行" None _ _ _ _ _ _ _ _)))))).
  - reflexivity.
  - reflexivity.
  - reflexivity.
  - reflexivity.
  - discriminate.
  - reflexivity.
  - reflexivity.
  - reflexivity.
Defined.
